(** * Cosine-bell convergence analysis (polaris/ocean/tasks/cosine_bell/analysis.py)

    A shallow embedding of [Analysis.rmse] and [Analysis.run].

    Numbers.  Python floats and numpy float64 arrays are embedded as exact
    real numbers ([R]) and lists of them: rounding, overflow and NaN are not
    represented, so every statement below is a statement about the
    computation carried out in exact arithmetic.  Three places where numpy
    yields NaN or an infinity without raising (mean of an empty array,
    division by a zero evaluation time or sphere radius, logarithm of a
    non-positive number) are excluded by hypotheses where they matter.  The
    numeric literals of the source (3.14159265, 3.1415926, 86400.0, 3600.)
    are kept as written; [np.pi] is [PI].

    Exceptions are values of [exn]; a computation that may raise returns a
    [result].  The plotting calls and the warning of [run] are recorded in
    an effect log, in program order. *)

From Stdlib Require Import Reals Lra Lia List String Ascii ZArith Bool Machin.
Import ListNotations.
Open Scope R_scope.

(** ** Exceptions and the error monad *)

Inductive exn : Type :=
| UnboundLocalError (name : string)
    (* a local variable read before any assignment *)
| ValueError_float (s : string)
    (* float(s): could not convert string to float *)
| ValueError_broadcast (n m : nat)
    (* operands could not be broadcast together *)
| ValueError_order (conv conv_thresh : R)
    (* raised by run: order of convergence < min tolerence *)
| IndexError
| TypeError
| FileNotFoundError (name : string).

Inductive result (A : Type) : Type :=
| Ok (a : A)
| Raise (e : exn).
Arguments Ok {A} a.
Arguments Raise {A} e.

Definition bind {A B : Type} (m : result A) (k : A -> result B) : result B :=
  match m with
  | Ok a => k a
  | Raise e => Raise e
  end.

Notation "x <- m ;; k" := (bind m (fun x => k))
  (at level 61, m at next level, right associativity).

(** Reading a local variable that may not have been assigned yet. *)
Definition get_local {A : Type} (name : string) (v : option A) : result A :=
  match v with
  | Some a => Ok a
  | None => Raise (UnboundLocalError name)
  end.

(** ** Python and numpy primitives used by the module *)

Module Py.

(** [s[a:b]] for [0 <= a <= b]: positions clamped to the string. *)
Definition slice (a b : nat) (s : string) : string := substring a (b - a) s.

Definition digit (c : ascii) : option Z :=
  let n := nat_of_ascii c in
  if (48 <=? n)%nat && (n <=? 57)%nat then Some (Z.of_nat (n - 48)) else None.

Fixpoint digits (s : string) (acc : Z) : option Z :=
  match s with
  | EmptyString => Some acc
  | String c s' =>
      match digit c with
      | Some d => digits s' (10 * acc + d)%Z
      | None => None
      end
  end.

(** [float(s)] on the fields of a time stamp: a non-empty string of decimal
    digits is converted (the value is a small integer, exact as a float),
    anything else is the ValueError case.  The other spellings [float]
    accepts (sign, surrounding blanks, decimal point, exponent) do not occur
    in the two-character fields cut out of an xtime stamp. *)
Definition float (s : string) : result R :=
  match s with
  | EmptyString => Raise (ValueError_float s)
  | _ =>
      match digits s 0 with
      | Some z => Ok (IZR z)
      | None => Raise (ValueError_float s)
      end
  end.

(** [a[i]] on a list, for [i >= 0]. *)
Definition index {A : Type} (a : list A) (i : nat) : result A :=
  match nth_error a i with
  | Some x => Ok x
  | None => Raise IndexError
  end.

End Py.

Module Np.

Fixpoint map2 (f : R -> R -> R) (a b : list R) : list R :=
  match a, b with
  | x :: a', y :: b' => f x y :: map2 f a' b'
  | _, _ => []
  end.

(** An elementwise binary operation on two one-dimensional arrays, with
    numpy's broadcasting: equal lengths, or one operand of length 1. *)
Definition broadcast2 (f : R -> R -> R) (a b : list R) : result (list R) :=
  if (List.length a =? List.length b)%nat then Ok (map2 f a b)
  else
    match a, b with
    | [x], _ => Ok (map (f x) b)
    | _, [y] => Ok (map (fun x => f x y) a)
    | _, _ => Raise (ValueError_broadcast (List.length a) (List.length b))
    end.

Definition zeros_like (a : list R) : list R := map (fun _ => 0) a.

Definition lt_scalar (a : list R) (r : R) : list bool :=
  map (fun x => if Rlt_dec x r then true else false) a.

(** [a[mask]] for a boolean mask: the selected entries, in order.  A mask
    whose length differs from the array's is an IndexError. *)
Fixpoint select (a : list R) (mask : list bool) : list R :=
  match a, mask with
  | x :: a', true :: m' => x :: select a' m'
  | _ :: a', false :: m' => select a' m'
  | _, _ => []
  end.

Definition getmask (a : list R) (mask : list bool) : result (list R) :=
  if (List.length a =? List.length mask)%nat then Ok (select a mask)
  else Raise IndexError.

(** [a[mask] = vals]: the entries selected by the mask are overwritten, in
    order, by the entries of [vals]. *)
Fixpoint put (a : list R) (mask : list bool) (vals : list R) : list R :=
  match a, mask with
  | x :: a', true :: m' =>
      match vals with
      | v :: vals' => v :: put a' m' vals'
      | [] => x :: put a' m' []
      end
  | x :: a', false :: m' => x :: put a' m' vals
  | _, _ => a
  end.

Definition setmask (a : list R) (mask : list bool) (vals : list R)
  : result (list R) :=
  if (List.length a =? List.length mask)%nat then Ok (put a mask vals)
  else Raise IndexError.

Definition sum (a : list R) : R := fold_right Rplus 0 a.

(** [np.mean(a)]; on an empty array numpy returns NaN, which is outside the
    embedding. *)
Definition mean (a : list R) : R := sum a / INR (List.length a).

Definition log10 (x : R) : R := ln x / ln 10.

End Np.

(** ** The data sets of one resolution *)

(** [<mesh_name>_mesh.nc] *)
Record MeshDs : Type := {
  sphere_radius : R;
  latCell : list R;
  lonCell : list R
}.

(** A file with the variable [tracer1], restricted to the first vertical
    layer: [tracer1 f] is indexed by time, then by cell, so that
    [tracer1[j, :, 0]] is the [j]-th row.  The output file also carries the
    time stamps [xtime], each as [str(ds.xtime[j].values)] renders it, that
    is with the prefix b' of a bytes value, as in b'0001-01-02_00:00:00'. *)
Record TracerDs : Type := {
  xtime : list string;
  tracer1 : list (list R)
}.

(** The options of the configuration file read by the step. *)
Record Config : Type := {
  lat_center : R;
  lon_center : R;
  radius : R;
  psi0 : R;
  convergence_eval_time : R;
  icos_conv_thresh : R;
  icos_conv_max : R;
  qu_conv_thresh : R;
  qu_conv_max : R
}.

(** The work directory: what [xr.open_dataset] finds under a file name. *)
Record WorkDir : Type := {
  mesh_file : string -> option MeshDs;
  tracer_file : string -> option TracerDs
}.

Definition open_mesh (w : WorkDir) (name : string) : result MeshDs :=
  match mesh_file w name with
  | Some d => Ok d
  | None => Raise (FileNotFoundError name)
  end.

Definition open_tracer (w : WorkDir) (name : string) : result TracerDs :=
  match tracer_file w name with
  | Some d => Ok d
  | None => Raise (FileNotFoundError name)
  end.

(** ** Analysis.rmse *)

Module Rmse.

(** The local variables the time loop may leave assigned. *)
Record locals : Type := {
  tt : option string;
  DY : option R;
  sliceTime : option nat
}.

(** The loop [for j in range(len(ds.xtime))], from index [j] on, entered
    with the locals [l] of the iterations already made. *)
Fixpoint time_loop (eval_time : R) (stamps : list string) (j : nat)
  (l : locals) : result locals :=
  match stamps with
  | [] => Ok l
  | s :: rest =>
      d <- Py.float (Py.slice 10 12 s) ;;
      let dy := d - 1 in
      if Req_dec_T dy eval_time
      then Ok {| tt := Some s; DY := Some dy; sliceTime := Some j |}
      else time_loop eval_time rest (S j)
             {| tt := Some s; DY := Some dy; sliceTime := sliceTime l |}
  end.

Definition no_locals : locals :=
  {| tt := None; DY := None; sliceTime := None |}.

(** [t = 86400.0 * DY + HR * 3600. + MN] *)
Definition elapsed (dy hr mn : R) : R := 86400 * dy + hr * 3600 + mn.

(** Lines 154-163: the loop, then the time of the last stamp read. *)
Definition find_time (eval_time : R) (stamps : list string)
  : result (locals * R) :=
  l <- time_loop eval_time stamps 0 no_locals ;;
  s <- get_local "tt" (tt l) ;;
  hr <- Py.float (Py.slice 13 15 s) ;;
  mn <- Py.float (Py.slice 16 18 s) ;;
  dy <- get_local "DY" (DY l) ;;
  Ok (l, elapsed dy hr mn).

(** [distTrav = 2.0 * 3.14159265 * R / (86400.0 * convergence_eval_time) * t] *)
Definition distTrav (R0 eval_time t : R) : R :=
  2 * 3.14159265 * R0 / (86400 * eval_time) * t.

(** Lines 170-172. *)
Definition wrap (newLon : R) : R :=
  if Rgt_dec newLon (2 * PI) then newLon - 2 * PI else newLon.

Definition newLon (lonCent R0 eval_time t : R) : R :=
  let distRad := distTrav R0 eval_time t / R0 in
  wrap (lonCent + distRad).

(** The value assigned under the mask, as a function of the distance. *)
Definition bell (psi radius0 d : R) : R :=
  psi / 2 * (1 + cos (3.1415926 * d / radius0)).

(** Lines 178-180: distance of every cell from the new centre. *)
Definition distances (R0 latCent nlon : R) (latC lonC : list R)
  : result (list R) :=
  let a := map (fun la => sin latCent * sin la) latC in
  let b := map (fun la => cos latCent * cos la) latC in
  let c := map (fun lo => cos (lo - nlon)) lonC in
  bc <- Np.broadcast2 Rmult b c ;;
  s <- Np.broadcast2 Rplus a bc ;;
  Ok (map (fun v => R0 * acos v) s).

(** Lines 175-183: the analytic tracer. *)
Definition analytic (psi radius0 : R) (init0 temp : list R)
  : result (list R) :=
  let tracer := Np.zeros_like init0 in
  let mask := Np.lt_scalar temp radius0 in
  sel <- Np.getmask temp mask ;;
  Np.setmask tracer mask (map (bell psi radius0) sel).

(** Line 187. *)
Definition rmseValue (tracerF tracer : list R) : result R :=
  diff <- Np.broadcast2 Rminus tracerF tracer ;;
  Ok (sqrt (Np.mean (map (fun x => x ^ 2) diff))).

Definition rmse (cfg : Config) (w : WorkDir) (mesh_name : string)
  : result (R * nat) :=
  let latCent := lat_center cfg in
  let lonCent := lon_center cfg in
  let eval_time := convergence_eval_time cfg in
  ds_mesh <- open_mesh w (mesh_name ++ "_mesh.nc")%string ;;
  ds_init <- open_tracer w (mesh_name ++ "_init.nc")%string ;;
  ds <- open_tracer w (mesh_name ++ "_output.nc")%string ;;
  lt <- find_time eval_time (xtime ds) ;;
  let (l, t) := (lt : locals * R) in
  let R0 := sphere_radius ds_mesh in
  let nlon := newLon lonCent R0 eval_time t in
  init0 <- Py.index (tracer1 ds_init) 0 ;;
  temp <- distances R0 latCent nlon (latCell ds_mesh) (lonCell ds_mesh) ;;
  tracer <- analytic (psi0 cfg) (radius cfg) init0 temp ;;
  j <- get_local "sliceTime" (sliceTime l) ;;
  tracerF <- Py.index (tracer1 ds) j ;;
  v <- rmseValue tracerF tracer ;;
  Ok (v, List.length init0).

End Rmse.

(** ** numpy.polyfit at degree 1 *)

Module Polyfit.

(** [np.polyfit(x, y, 1)] belongs to numpy, not to this module.  It is
    embedded as the least-squares line in closed form (slope first, then
    intercept, as numpy orders the coefficients); [fit_minimises] below
    shows that this line does minimise the sum of squared residuals.  numpy
    rejects an empty [x] and vectors of different lengths with a TypeError.
    When all abscissae coincide the minimiser is not unique: numpy warns and
    returns one of them, the closed form returns the horizontal one. *)

Definition xbar (x : list R) : R := Np.mean x.

(** Sums of squares and of products of the deviations from [c], [cx], [cy]. *)
Definition sq_dev (c : R) (x : list R) : R :=
  Np.sum (map (fun u => (u - c) ^ 2) x).

Definition co_dev (cx cy : R) (x y : list R) : R :=
  Np.sum (Np.map2 (fun u v => (u - cx) * (v - cy)) x y).

Definition Sxx (x : list R) : R := sq_dev (xbar x) x.

Definition Sxy (x y : list R) : R := co_dev (xbar x) (xbar y) x y.

Definition slope (x y : list R) : R := Sxy x y / Sxx x.

Definition intercept (x y : list R) : R := xbar y - slope x y * xbar x.

Definition polyfit1 (x y : list R) : result (R * R) :=
  match x with
  | [] => Raise TypeError
  | _ =>
      if (List.length x =? List.length y)%nat
      then Ok (slope x y, intercept x y)
      else Raise TypeError
  end.

(** Sum of squared residuals of the line [v = m * u + b]. *)
Definition ssr (m b : R) (x y : list R) : R :=
  Np.sum (Np.map2 (fun u v => (v - (m * u + b)) ^ 2) x y).

End Polyfit.

(** ** Analysis.run *)

(** What [run] does to the outside world, in program order. *)
Inductive effect : Type :=
| SwitchBackend (name : string)
| Loglog (x y : list R) (fmt : string)
| Annotate (conv : R)
    (* the label 'Order of Convergence = ...', made from np.round(conv, 3) *)
| Xlabel (s : string)
| Ylabel (s : string)
| Savefig (file : string)
| Warn (conv conv_max : R).

(** A computation that logs effects and may raise. *)
Definition M (A : Type) : Type := (list effect * result A)%type.

Definition ret {A : Type} (a : A) : M A := ([], Ok a).
Definition emit (e : effect) : M unit := ([e], Ok tt).
Definition raise {A : Type} (e : exn) : M A := ([], Raise e).
Definition lift {A : Type} (r : result A) : M A := ([], r).

Definition bindM {A B : Type} (m : M A) (k : A -> M B) : M B :=
  match m with
  | (l, Ok a) => let (l', r) := k a in (l ++ l', r)
  | (l, Raise e) => (l, Raise e)
  end.

Notation "x <~ m ;; k" := (bindM m (fun x => k))
  (at level 61, m at next level, right associativity).
Notation "m ;;; k" := (bindM m (fun _ => k))
  (at level 61, right associativity).

Record Analysis : Type := {
  resolutions : list R;
  icosahedral : bool;
  config : Config;
  work_dir : WorkDir
}.

Section Run.

(** [polaris.ocean.resolution.resolution_to_subdir], defined outside this
    module: the name of the mesh of a resolution. *)
Variable resolution_to_subdir : R -> string.

(** Lines 87-91: the loop over the resolutions, entered with the lists
    filled so far. *)
Fixpoint collect (self : Analysis) (rs : list R)
  (xdata : list nat) (ydata : list R) : result (list nat * list R) :=
  match rs with
  | [] => Ok (xdata, ydata)
  | resolution :: rest =>
      let mesh_name := resolution_to_subdir resolution in
      p <- Rmse.rmse (config self) (work_dir self) mesh_name ;;
      let (rmseValue, nCells) := (p : R * nat) in
      collect self rest (xdata ++ [nCells]) (ydata ++ [rmseValue])
  end.

(** Line 95: [p = np.polyfit(np.log10(xdata), np.log10(ydata), 1)], with
    [xdata] the array of the cell counts. *)
Definition fit (xdata : list nat) (ydata : list R) : result (R * R) :=
  Polyfit.polyfit1 (map Np.log10 (map INR xdata)) (map Np.log10 ydata).

(** Line 96: [conv = abs(p[0]) * 2.0]. *)
Definition order (p : R * R) : R := Rabs (fst p) * 2.

(** Lines 108-114: the pair of thresholds of the mesh family. *)
Definition thresholds (self : Analysis) : R * R :=
  let section := config self in
  if icosahedral self
  then (icos_conv_thresh section, icos_conv_max section)
  else (qu_conv_thresh section, qu_conv_max section).

(** Lines 116-122. *)
Definition check (conv conv_thresh conv_max : R) : M unit :=
  (if Rlt_dec conv conv_thresh
   then raise (ValueError_order conv conv_thresh)
   else ret tt) ;;;
  (if Rgt_dec conv conv_max
   then emit (Warn conv conv_max)
   else ret tt).

(** Lines 92-122: everything after the loop over the resolutions. *)
Definition converge (self : Analysis) (cells : list nat) (ydata : list R)
  : M unit :=
  let xdata := map INR cells in
  p <~ lift (fit cells ydata) ;;
  let conv := order p in
  let yfit := map (fun x => Rpower x (fst p) * Rpower 10 (snd p)) xdata in
  emit (Loglog xdata yfit "k") ;;;
  emit (Loglog xdata ydata "or") ;;;
  emit (Annotate conv) ;;;
  emit (Xlabel "Number of Grid Cells") ;;;
  emit (Ylabel "L2 Norm") ;;;
  emit (Savefig "convergence.png") ;;;
  let (conv_thresh, conv_max) := thresholds self in
  check conv conv_thresh conv_max.

Definition run (self : Analysis) : M unit :=
  emit (SwitchBackend "Agg") ;;;
  d <~ lift (collect self (resolutions self) [] []) ;;
  converge self (fst d) (snd d).

End Run.

(** ** Vocabulary of the statements *)

(** No stamp of the list has an elapsed-day count equal to [eval_time]. *)
Definition no_match (eval_time : R) (stamps : list string) : Prop :=
  forall s d, In s stamps -> Py.float (Py.slice 10 12 s) = Ok d ->
    d - 1 <> eval_time.

(** The analytic tracer as the specification words it, with the constant pi:
    [0] at distance [d >= radius] from the centre, and
    [(amplitude/2) * (1 + cos (pi * d / radius))] below. *)
Definition cosine_bell (amplitude radius0 d : R) : R :=
  if Rlt_dec d radius0
  then amplitude / 2 * (1 + cos (PI * d / radius0))
  else 0.

(** The distance of one cell from the centre, by the spherical law of
    cosines. *)
Definition great_circle (R0 latCent nlon la lo : R) : R :=
  R0 * acos (sin latCent * sin la + cos latCent * cos la * cos (lo - nlon)).

(** The elapsed seconds that a day count, an hour and a minute stand for. *)
Definition elapsed_seconds (dy hr mn : R) : R :=
  86400 * dy + 3600 * hr + 60 * mn.

(** [x] brought into the interval from 0 (included) to 2 pi (excluded) by a
    whole number of turns. *)
Definition wrapped (x y : R) : Prop :=
  0 <= y < 2 * PI /\ exists k : Z, y = x - IZR k * (2 * PI).

(** [m] does not raise the ValueError of line 117. *)
Definition no_order_error {A : Type} (m : result A) : Prop :=
  forall conv conv_thresh, m <> Raise (ValueError_order conv conv_thresh).

(** The analytic tracer of one cell at distance [d], as the code computes
    it. *)
Definition bell_cell (psi radius0 d : R) : R :=
  if Rlt_dec d radius0 then Rmse.bell psi radius0 d else 0.

Definition fails {A : Type} (m : M A) : Prop := exists e, snd m = Raise e.

Definition warns {A : Type} (m : M A) : Prop :=
  exists conv conv_max, In (Warn conv conv_max) (fst m).

(** The effects of lines 100-106: the two curves, the label, the axes and
    the image file. *)
Definition plot (cells : list nat) (ydata : list R) (p : R * R)
  : list effect :=
  let xdata := map INR cells in
  [ Loglog xdata
      (map (fun x => Rpower x (fst p) * Rpower 10 (snd p)) xdata) "k";
    Loglog xdata ydata "or";
    Annotate (order p);
    Xlabel "Number of Grid Cells";
    Ylabel "L2 Norm";
    Savefig "convergence.png" ].

(** ** Concrete inputs *)

Module Sample.

Definition cfg : Config := {|
  lat_center := 0;
  lon_center := 3.14159265;
  radius := 2123740;
  psi0 := 1;
  convergence_eval_time := 1;
  icos_conv_thresh := 1.8;
  icos_conv_max := 2.2;
  qu_conv_thresh := 1.8;
  qu_conv_max := 2.2
|}.

Definition mesh : MeshDs := {|
  sphere_radius := 6371220;
  latCell := [0];
  lonCell := [0]
|}.

Definition init : TracerDs := {|
  xtime := ["b'0001-01-01_00:00:00'"%string];
  tracer1 := [[0]]
|}.

(** An output file whose only stamp is the start of the run: day count 0,
    while the evaluation time is 1 day. *)
Definition output_day0 : TracerDs := {|
  xtime := ["b'0001-01-01_00:00:00'"%string];
  tracer1 := [[0]]
|}.

Definition dir_day0 : WorkDir := {|
  mesh_file := fun name =>
    if String.eqb name "60km_mesh.nc" then Some mesh else None;
  tracer_file := fun name =>
    if String.eqb name "60km_init.nc" then Some init
    else if String.eqb name "60km_output.nc" then Some output_day0
    else None
|}.

(** Three resolutions with the thresholds [conv_thresh] and [conv_max] for
    both mesh families. *)
Definition analysis (conv_thresh conv_max : R) (w : WorkDir) : Analysis := {|
  resolutions := [240; 120; 60];
  icosahedral := true;
  config := {|
    lat_center := 0;
    lon_center := 3.14159265;
    radius := 2123740;
    psi0 := 1;
    convergence_eval_time := 1;
    icos_conv_thresh := conv_thresh;
    icos_conv_max := conv_max;
    qu_conv_thresh := conv_thresh;
    qu_conv_max := conv_max
  |};
  work_dir := w
|}.

(** A complete work directory: meshes of 100, 400 and 1600 cells, all at
    latitude and longitude 0; output with the stamps of day counts 0 and 1;
    at day count 1 the modelled tracer is 0.1, 0.025 and 0.00625 in every
    cell of the three meshes. *)
Definition stamps : list string :=
  ["b'0001-01-01_00:00:00'"%string; "b'0001-01-02_00:00:00'"%string].

Definition mesh_of (k : nat) : MeshDs := {|
  sphere_radius := 6371220;
  latCell := repeat 0 k;
  lonCell := repeat 0 k
|}.

Definition init_of (k : nat) : TracerDs := {|
  xtime := ["b'0001-01-01_00:00:00'"%string];
  tracer1 := [repeat 0 k]
|}.

Definition output_of (k : nat) (c : R) : TracerDs := {|
  xtime := stamps;
  tracer1 := [repeat 0 k; repeat c k]
|}.

Definition dir : WorkDir := {|
  mesh_file := fun name =>
    if String.eqb name "240km_mesh.nc" then Some (mesh_of 100)
    else if String.eqb name "120km_mesh.nc" then Some (mesh_of 400)
    else if String.eqb name "60km_mesh.nc" then Some (mesh_of 1600)
    else None;
  tracer_file := fun name =>
    if String.eqb name "240km_init.nc" then Some (init_of 100)
    else if String.eqb name "120km_init.nc" then Some (init_of 400)
    else if String.eqb name "60km_init.nc" then Some (init_of 1600)
    else if String.eqb name "240km_output.nc" then Some (output_of 100 0.1)
    else if String.eqb name "120km_output.nc" then Some (output_of 400 0.025)
    else if String.eqb name "60km_output.nc"
         then Some (output_of 1600 0.00625)
    else None
|}.

Definition subdir (resolution : R) : string :=
  if Req_dec_T resolution 240 then "240km"
  else if Req_dec_T resolution 120 then "120km"
  else "60km".

(** Exact second-order decay: RMSE = 10 / N. *)
Definition cells : list nat := [100%nat; 400%nat; 1600%nat].
Definition ydata : list R := [0.1; 0.025; 0.00625].

End Sample.

(** ** Analysis.__init__ and Analysis.setup *)

Module Setup.

(** The base class [polaris.Step] is defined outside this module.  Of a
    step only what this module reads and writes is kept; [add_input_file]
    and [add_output_file] are taken to append to the lists [input_data]
    (file name, target) and [outputs] of the step.  The dependencies are a
    dict of dicts: a kind ('mesh', 'init', 'forward'), then a resolution,
    give a step, of which only the path is used. *)

Inductive KeyError : Type :=
| KeyError_kind (key : string)
| KeyError_resolution (key : R).

Definition Dependencies : Type := string -> option (R -> option string).

Record state : Type := {
  name : string;
  subdir : string;
  resolutions : list R;
  icosahedral : bool;
  dependencies_dict : Dependencies;
  input_data : list (string * string);
  outputs : list string
}.

(** Lines 50-55. *)
Definition init (resolutions0 : list R) (icosahedral0 : bool)
  (subdir0 : string) (dependencies : Dependencies) : state := {|
  name := "analysis";
  subdir := subdir0;
  resolutions := resolutions0;
  icosahedral := icosahedral0;
  dependencies_dict := dependencies;
  input_data := [];
  outputs := ["convergence.png"%string]
|}.

(** [dependencies[kind][resolution].path] *)
Definition lookup (dependencies : Dependencies) (kind : string)
  (resolution : R) : KeyError + string :=
  match dependencies kind with
  | None => inl (KeyError_kind kind)
  | Some d =>
      match d resolution with
      | None => inl (KeyError_resolution resolution)
      | Some path => inr path
      end
  end.

Section Loop.

Variable resolution_to_subdir : R -> string.

(** The three input files of one resolution, lines 69-77. *)
Definition files (mesh_name base_mesh init0 forward : string)
  : list (string * string) :=
  [ ((mesh_name ++ "_mesh.nc")%string, (base_mesh ++ "/base_mesh.nc")%string);
    ((mesh_name ++ "_init.nc")%string, (init0 ++ "/initial_state.nc")%string);
    ((mesh_name ++ "_output.nc")%string, (forward ++ "/output.nc")%string) ].

(** Lines 64-77: the loop over the resolutions, entered with the inputs
    added so far.  A KeyError leaves the loop; the inputs already added
    stay. *)
Fixpoint setup_loop (dependencies : Dependencies) (rs : list R)
  (inputs : list (string * string))
  : list (string * string) * option KeyError :=
  match rs with
  | [] => (inputs, None)
  | resolution :: rest =>
      let mesh_name := resolution_to_subdir resolution in
      match lookup dependencies "mesh" resolution with
      | inl e => (inputs, Some e)
      | inr base_mesh =>
          match lookup dependencies "init" resolution with
          | inl e => (inputs, Some e)
          | inr init0 =>
              match lookup dependencies "forward" resolution with
              | inl e => (inputs, Some e)
              | inr forward =>
                  setup_loop dependencies rest
                    (inputs ++ files mesh_name base_mesh init0 forward)
              end
          end
      end
  end.

Definition setup (self : state) : state * option KeyError :=
  let (inputs, e) :=
    setup_loop (dependencies_dict self) (resolutions self) (input_data self)
  in
  ({| name := name self;
      subdir := subdir self;
      resolutions := resolutions self;
      icosahedral := icosahedral self;
      dependencies_dict := dependencies_dict self;
      input_data := inputs;
      outputs := outputs self |}, e).

End Loop.

End Setup.

(** The three characters fields that the time loop reads from a stamp. *)
Definition time_fields (s : string) : string * string * string :=
  (Py.slice 10 12 s, Py.slice 13 15 s, Py.slice 16 18 s).

(** The names of the files that [rmse] opens for a mesh. *)
Definition opened (mesh_name : string) : list string :=
  [ (mesh_name ++ "_mesh.nc")%string;
    (mesh_name ++ "_init.nc")%string;
    (mesh_name ++ "_output.nc")%string ].

(** A step with two resolutions whose dependencies are all present, and one
    where the forward step of the resolution 120 is missing. *)
Module SampleSetup.

Definition deps : Setup.Dependencies :=
  fun kind => Some (fun _ => Some ("../" ++ kind)%string).

Definition deps_no_forward_120 : Setup.Dependencies :=
  fun kind =>
    if String.eqb kind "forward"
    then Some (fun r => if Req_dec_T r 120 then None else Some "../forward"%string)
    else Some (fun _ => Some ("../" ++ kind)%string).

Definition step (d : Setup.Dependencies) : Setup.state :=
  Setup.init [240; 120] true "analysis" d.

End SampleSetup.

(** * Properties *)

(** ** The error monad *)

Lemma bind_Ok_inv {A B : Type} (m : result A) (k : A -> result B) (b : B) :
  bind m k = Ok b -> exists a, m = Ok a /\ k a = Ok b.
Proof.
  destruct m as [a|e]; simpl; intros H.
  - exists a; split; [reflexivity | exact H].
  - discriminate H.
Qed.

(** ** The time loop *)


(** The loop stops at the first stamp whose day count matches, and leaves
    that stamp, its day count and its index in the locals. *)
Lemma time_loop_first_match (eval_time : R) (s : string) (post : list string)
  (d : R) (pre : list string) :
  Py.float (Py.slice 10 12 s) = Ok d -> d - 1 = eval_time ->
  no_match eval_time pre ->
  (forall s', In s' pre -> exists d', Py.float (Py.slice 10 12 s') = Ok d') ->
  forall j l,
    Rmse.time_loop eval_time (pre ++ s :: post) j l
    = Ok {| Rmse.tt := Some s; Rmse.DY := Some (d - 1);
            Rmse.sliceTime := Some (j + List.length pre)%nat |}.
Proof.
  intros Hd He. induction pre as [|s0 pre IH]; intros Hno Hp j l.
  - cbn [app Rmse.time_loop]. rewrite Hd. cbn [bind].
    destruct (Req_dec_T (d - 1) eval_time) as [_|n]; [|contradiction].
    cbn [List.length]. rewrite Nat.add_0_r. reflexivity.
  - cbn [app Rmse.time_loop].
    destruct (Hp s0 (or_introl eq_refl)) as (d0 & Hd0).
    rewrite Hd0. cbn [bind].
    destruct (Req_dec_T (d0 - 1) eval_time) as [e|_].
    + exfalso. exact (Hno s0 d0 (or_introl eq_refl) Hd0 e).
    + rewrite IH.
      * cbn [List.length]. rewrite Nat.add_succ_r. reflexivity.
      * intros s' d' Hin. apply Hno. right. exact Hin.
      * intros s' Hin. apply Hp. right. exact Hin.
Qed.



(** With no stamp at all the failure comes earlier, at line 161. *)
Lemma find_time_empty (eval_time : R) :
  Rmse.find_time eval_time [] = Raise (UnboundLocalError "tt").
Proof. reflexivity. Qed.

Lemma float_stamp_day0 :
  Py.float (Py.slice 10 12 "b'0001-01-01_00:00:00'") = Ok 1.
Proof. reflexivity. Qed.

(** C1, at the failing input: the output file holds only the stamp of day
    count 0 and the evaluation time is 1 day.  [rmse] goes through lines
    161-183 with the fields of that stamp and then raises
    UnboundLocalError for [sliceTime] at line 186: there is no error that
    names the missing time step. *)
Theorem rmse_no_match_unbound_sliceTime :
  no_match (convergence_eval_time Sample.cfg) (xtime Sample.output_day0) /\
  Rmse.rmse Sample.cfg Sample.dir_day0 "60km"
    = Raise (UnboundLocalError "sliceTime").
Proof.
  split.
  - intros s d [<-|[]] Hd. rewrite float_stamp_day0 in Hd.
    injection Hd as <-. simpl. lra.
  - unfold Rmse.rmse.
    change (open_mesh Sample.dir_day0 ("60km" ++ "_mesh.nc"))
      with (Ok Sample.mesh).
    change (open_tracer Sample.dir_day0 ("60km" ++ "_init.nc"))
      with (Ok Sample.init).
    change (open_tracer Sample.dir_day0 ("60km" ++ "_output.nc"))
      with (Ok Sample.output_day0).
    cbn [bind].
    unfold Rmse.find_time, Sample.output_day0 at 1, xtime, Rmse.time_loop.
    rewrite float_stamp_day0. cbn [bind].
    destruct (Req_dec_T (1 - 1) (convergence_eval_time Sample.cfg)) as [e|_];
      [simpl in e; lra|].
    cbn [bind get_local Rmse.tt Rmse.DY Rmse.sliceTime Rmse.no_locals].
    change (Py.float (Py.slice 13 15 "b'0001-01-01_00:00:00'"))
      with (Ok (A:=R) 0).
    change (Py.float (Py.slice 16 18 "b'0001-01-01_00:00:00'"))
      with (Ok (A:=R) 0).
    cbn [bind].
    change (Py.index (tracer1 Sample.init) 0) with (Ok [0]).
    cbn [bind].
    reflexivity.
Qed.

(** ** The elapsed time *)

Lemma elapsed_minutes_as_seconds (dy hr mn : R) :
  Rmse.elapsed dy hr mn = elapsed_seconds dy hr mn - 59 * mn.
Proof. unfold Rmse.elapsed, elapsed_seconds. ring. Qed.

(** C3, at the failing input: the matched stamp is day count 1, 00:30.  The
    code adds the minute field to the seconds as it is, t = 86430, where
    the fields stand for 86400 + 60 * 30 = 88200 elapsed seconds. *)
Theorem elapsed_adds_minutes_unscaled :
  exists l,
    Rmse.find_time 1 ["b'0001-01-02_00:30:00'"%string] = Ok (l, 86430) /\
    Rmse.sliceTime l = Some 0%nat /\
    Rmse.DY l = Some (2 - 1) /\
    elapsed_seconds (2 - 1) 0 30 = 88200 /\
    86430 <> elapsed_seconds (2 - 1) 0 30.
Proof.
  eexists. split; [|split; [|split; [|split]]].
  - unfold Rmse.find_time, Rmse.time_loop.
    change (Py.float (Py.slice 10 12 "b'0001-01-02_00:30:00'"))
      with (Ok (A:=R) 2).
    cbn [bind].
    destruct (Req_dec_T (2 - 1) 1) as [_|ne]; [|exfalso; apply ne; lra].
    cbn [bind get_local Rmse.tt Rmse.DY].
    change (Py.float (Py.slice 13 15 "b'0001-01-02_00:30:00'"))
      with (Ok (A:=R) 0).
    change (Py.float (Py.slice 16 18 "b'0001-01-02_00:30:00'"))
      with (Ok (A:=R) 30).
    cbn [bind]. unfold Rmse.elapsed.
    replace (86400 * (2 - 1) + 0 * 3600 + 30) with 86430 by lra.
    reflexivity.
  - reflexivity.
  - reflexivity.
  - unfold elapsed_seconds. lra.
  - unfold elapsed_seconds. lra.
Qed.

(** ** The new longitude of the centre *)

Lemma PI_lower : 3.1415926 < PI.
Proof.
  pose proof (PI_2_3_7_ineq 3) as [H _].
  unfold sum_f_R0, tg_alt, PI_2_3_7_tg, Ratan_seq in H.
  simpl in H. lra.
Qed.

Lemma PI_upper : PI < 3.1415927.
Proof.
  pose proof (PI_2_3_7_ineq 4) as [_ H].
  unfold sum_f_R0, tg_alt, PI_2_3_7_tg, Ratan_seq in H.
  simpl in H. lra.
Qed.

Lemma wrap_below (x : R) : x <= 2 * PI -> Rmse.wrap x = x.
Proof.
  intros H. unfold Rmse.wrap.
  destruct (Rgt_dec x (2 * PI)) as [g|_]; [lra | reflexivity].
Qed.

Lemma wrap_above (x : R) : 2 * PI < x -> Rmse.wrap x = x - 2 * PI.
Proof.
  intros H. unfold Rmse.wrap.
  destruct (Rgt_dec x (2 * PI)) as [_|n]; [reflexivity | lra].
Qed.

(** The angle travelled does not depend on the radius of the sphere. *)
Lemma distRad_eq (R0 eval_time t : R) :
  R0 <> 0 -> eval_time <> 0 ->
  Rmse.distTrav R0 eval_time t / R0
    = 2 * 3.14159265 * t / (86400 * eval_time).
Proof. intros HR He. unfold Rmse.distTrav. field. split; assumption. Qed.

Lemma find_time_13h :
  exists l,
    Rmse.find_time 1
      ["b'0001-01-01_00:00:00'"%string; "b'0001-01-02_13:00:00'"%string]
      = Ok (l, 133200) /\
    Rmse.sliceTime l = Some 1%nat.
Proof.
  eexists. split.
  - unfold Rmse.find_time, Rmse.time_loop.
    change (Py.float (Py.slice 10 12 "b'0001-01-01_00:00:00'"))
      with (Ok (A:=R) 1).
    cbn [bind].
    destruct (Req_dec_T (1 - 1) 1) as [e|_]; [lra|].
    change (Py.float (Py.slice 10 12 "b'0001-01-02_13:00:00'"))
      with (Ok (A:=R) 2).
    cbn [bind].
    destruct (Req_dec_T (2 - 1) 1) as [_|ne]; [|exfalso; apply ne; lra].
    cbn [bind get_local Rmse.tt Rmse.DY].
    change (Py.float (Py.slice 13 15 "b'0001-01-02_13:00:00'"))
      with (Ok (A:=R) 13).
    change (Py.float (Py.slice 16 18 "b'0001-01-02_13:00:00'"))
      with (Ok (A:=R) 0).
    cbn [bind]. unfold Rmse.elapsed.
    replace (86400 * (2 - 1) + 13 * 3600 + 0) with 133200 by lra.
    reflexivity.
  - reflexivity.
Qed.

(** C2 as stated fails: with the centre at longitude 3.14159265, an
    evaluation time of 1 day and a first matching stamp at 13:00 of day
    count 1 (t = 133200 s), the sum of centre and drift exceeds 4 pi, and the
    single subtraction of 2 pi leaves a longitude above 2 pi. *)
Lemma newLon_not_wrapped :
  let x := 3.14159265 + Rmse.distTrav 6371220 1 133200 / 6371220 in
  (exists l,
     Rmse.find_time 1
       ["b'0001-01-01_00:00:00'"%string; "b'0001-01-02_13:00:00'"%string]
       = Ok (l, 133200)) /\
  2 * PI <= Rmse.newLon 3.14159265 6371220 1 133200 /\
  ~ wrapped x (Rmse.newLon 3.14159265 6371220 1 133200).
Proof.
  intros x.
  assert (H : 2 * PI <= Rmse.newLon 3.14159265 6371220 1 133200).
  { unfold Rmse.newLon. rewrite distRad_eq by lra.
    pose proof PI_upper as Hpi.
    rewrite wrap_above by lra.
    lra. }
  split; [|split; [exact H|]].
  - destruct find_time_13h as (l & Hl & _). exists l. exact Hl.
  - intros [[_ Hlt] _]. lra.
Qed.

(** C2, amended: the new longitude is the sum of centre and drift when that
    sum is at most 2 pi, and the sum less 2 pi when it is above; for a sum
    from 0 (included) to 4 pi (excluded) other than 2 pi itself this is the
    sum wrapped into the interval from 0 to 2 pi, and in particular so for
    a centre at longitude 0 and a drift between 2 pi and 4 pi. *)
Theorem newLon_wrapped (lonCent R0 eval_time t : R) :
  R0 <> 0 -> eval_time <> 0 ->
  let x := lonCent + Rmse.distTrav R0 eval_time t / R0 in
  0 <= x < 4 * PI -> x <> 2 * PI ->
  wrapped x (Rmse.newLon lonCent R0 eval_time t) /\
  (x < 2 * PI -> Rmse.newLon lonCent R0 eval_time t = x) /\
  (2 * PI < x -> Rmse.newLon lonCent R0 eval_time t = x - 2 * PI) /\
  (lonCent = 0 -> 2 * PI < x -> 0 <= Rmse.newLon 0 R0 eval_time t < 2 * PI).
Proof.
  intros HR He x [H0 H4] H2.
  assert (Hn : Rmse.newLon lonCent R0 eval_time t = Rmse.wrap x)
    by reflexivity.
  rewrite Hn.
  destruct (Rle_lt_dec x (2 * PI)) as [Hle|Hgt].
  - assert (Hlt : x < 2 * PI) by lra.
    rewrite wrap_below by exact Hle.
    split; [|split; [|split]].
    + split; [lra|]. exists 0%Z. lra.
    + reflexivity.
    + lra.
    + lra.
  - rewrite wrap_above by exact Hgt.
    split; [|split; [|split]].
    + split; [lra|]. exists 1%Z. lra.
    + lra.
    + reflexivity.
    + intros -> _.
      assert (Hn0 : Rmse.newLon 0 R0 eval_time t = Rmse.wrap x)
        by reflexivity.
      rewrite Hn0, wrap_above by exact Hgt. lra.
Qed.

Lemma newLon_wrapped_witness :
  wrapped (0 + Rmse.distTrav 6371220 1 90000 / 6371220)
    (Rmse.newLon 0 6371220 1 90000).
Proof.
  assert (Hx : 0 + Rmse.distTrav 6371220 1 90000 / 6371220
               = 2 * 3.14159265 * 90000 / 86400).
  { rewrite distRad_eq by lra. lra. }
  pose proof PI_lower as Hl. pose proof PI_upper as Hu.
  refine (proj1 (newLon_wrapped 0 6371220 1 90000 _ _ _ _)).
  - lra.
  - lra.
  - rewrite Hx. lra.
  - rewrite Hx. lra.
Defined.

(** ** The analytic tracer *)

Lemma length_lt_scalar (a : list R) (r : R) :
  List.length (Np.lt_scalar a r) = List.length a.
Proof. unfold Np.lt_scalar. apply length_map. Qed.

Lemma put_zeros (f : R -> R) (r : R) (temp : list R) :
  forall init0, List.length init0 = List.length temp ->
    Np.put (Np.zeros_like init0) (Np.lt_scalar temp r)
      (map f (Np.select temp (Np.lt_scalar temp r)))
    = map (fun d => if Rlt_dec d r then f d else 0) temp.
Proof.
  induction temp as [|d temp IH]; intros [|x init0] Hlen;
    try discriminate Hlen; [reflexivity|].
  injection Hlen as Hlen. simpl.
  destruct (Rlt_dec d r); simpl; f_equal; apply IH; exact Hlen.
Qed.

(** Cell by cell, the masked assignment computes 0 at distance
    [d >= radius] and [bell] below. *)
Lemma analytic_cells (psi radius0 : R) (init0 temp : list R) :
  List.length init0 = List.length temp ->
  Rmse.analytic psi radius0 init0 temp
    = Ok (map (bell_cell psi radius0) temp).
Proof.
  intros Hlen. unfold Rmse.analytic, Np.getmask, Np.setmask.
  rewrite length_lt_scalar, Nat.eqb_refl. cbn [bind].
  assert (Hz : List.length (Np.zeros_like init0) = List.length temp).
  { unfold Np.zeros_like. rewrite length_map. exact Hlen. }
  rewrite Hz, Nat.eqb_refl. f_equal.
  apply (put_zeros (Rmse.bell psi radius0)). exact Hlen.
Qed.

(** Inside the bell the code's value differs from the cosine bell: the
    literal 3.1415926 is below pi. *)
Lemma bell_above_cosine_bell (psi radius0 d : R) :
  0 < psi -> 0 < d < radius0 ->
  cosine_bell psi radius0 d < Rmse.bell psi radius0 d.
Proof.
  intros Hpsi [Hd Hr]. unfold cosine_bell, Rmse.bell.
  destruct (Rlt_dec d radius0) as [_|n]; [|lra].
  pose proof PI_lower as Hl. pose proof PI_RGT_0 as Hp.
  assert (Hq : 0 < d / radius0 < 1).
  { split.
    - apply Rdiv_lt_0_compat; lra.
    - apply Rmult_lt_reg_r with radius0; [lra|].
      unfold Rdiv. rewrite Rmult_assoc, Rinv_l by lra. lra. }
  assert (Hcos : cos (PI * d / radius0) < cos (3.1415926 * d / radius0)).
  { replace (PI * d / radius0) with (PI * (d / radius0))
      by (unfold Rdiv; ring).
    replace (3.1415926 * d / radius0) with (3.1415926 * (d / radius0))
      by (unfold Rdiv; ring).
    apply cos_decreasing_1; nra. }
  nra.
Qed.

(** C6, at the failing input: a cell on the equator at 1/6 radian from the
    centre, on a sphere of radius 6371220 with a bell of radius 2123740, is
    at distance 1061870, half the radius of the bell.  The code assigns
    (1/2) * (1 + cos (3.1415926 / 2)), which is not the cosine-bell value
    (1/2) * (1 + cos (pi / 2)) = 1/2. *)
Theorem bell_uses_truncated_pi (nlon : R) :
  exists d v,
    Rmse.distances 6371220 0 nlon [0] [nlon + 1 / 6] = Ok [d] /\
    d = 1061870 /\
    Rmse.analytic 1 2123740 [0] [d] = Ok [v] /\
    v = 1 / 2 * (1 + cos (3.1415926 / 2)) /\
    cosine_bell 1 2123740 d = 1 / 2 /\
    v <> cosine_bell 1 2123740 d.
Proof.
  pose proof PI_lower as Hl.
  assert (Hd : 6371220 * acos (sin 0 * sin 0 + cos 0 * cos 0 *
                                 cos (nlon + 1 / 6 - nlon)) = 1061870).
  { rewrite sin_0, cos_0.
    replace (nlon + 1 / 6 - nlon) with (1 / 6) by ring.
    replace (0 * 0 + 1 * 1 * cos (1 / 6)) with (cos (1 / 6)) by ring.
    rewrite acos_cos by lra. lra. }
  exists (6371220 * acos (sin 0 * sin 0 + cos 0 * cos 0 *
                            cos (nlon + 1 / 6 - nlon))).
  exists (Rmse.bell 1 2123740 1061870).
  split; [reflexivity|].
  split; [exact Hd|].
  rewrite Hd.
  assert (Hc : cosine_bell 1 2123740 1061870 = 1 / 2).
  { unfold cosine_bell.
    destruct (Rlt_dec 1061870 2123740) as [_|n]; [|lra].
    replace (PI * 1061870 / 2123740) with (PI / 2) by lra.
    rewrite cos_PI2. lra. }
  split; [|split; [|split]].
  - rewrite analytic_cells by reflexivity. cbn [map]. unfold bell_cell.
    destruct (Rlt_dec 1061870 2123740) as [_|n]; [reflexivity | lra].
  - unfold Rmse.bell.
    replace (3.1415926 * 1061870 / 2123740) with (3.1415926 / 2) by lra.
    reflexivity.
  - exact Hc.
  - pose proof (bell_above_cosine_bell 1 2123740 1061870) as H.
    lra.
Qed.

(** ** The root-mean-square error *)

Lemma broadcast2_same_length (f : R -> R -> R) (a b : list R) :
  List.length a = List.length b ->
  Np.broadcast2 f a b = Ok (Np.map2 f a b).
Proof.
  intros H. unfold Np.broadcast2. rewrite H, Nat.eqb_refl. reflexivity.
Qed.

Lemma length_map2 (f : R -> R -> R) (a : list R) :
  forall b, List.length a = List.length b ->
    List.length (Np.map2 f a b) = List.length a.
Proof.
  induction a as [|x a IH]; intros [|y b] H; try discriminate H;
    [reflexivity|].
  simpl. f_equal. apply IH. injection H as H. exact H.
Qed.

Lemma sum_cons (x : R) (l : list R) : Np.sum (x :: l) = x + Np.sum l.
Proof. reflexivity. Qed.

Lemma sum_squares_nonneg (l : list R) :
  0 <= Np.sum (map (fun x => x ^ 2) l).
Proof.
  induction l as [|x l IH]; [unfold Np.sum; simpl; lra|].
  cbn [map]. rewrite sum_cons.
  pose proof (pow2_ge_0 x). lra.
Qed.

Lemma squares_swap (a : list R) :
  forall b, map (fun x => x ^ 2) (Np.map2 Rminus a b)
          = map (fun x => x ^ 2) (Np.map2 Rminus b a).
Proof.
  induction a as [|x a IH]; intros [|y b]; try reflexivity.
  simpl. f_equal; [ring | apply IH].
Qed.

Lemma sum_squares_zero (a : list R) :
  forall b, List.length a = List.length b ->
    Np.sum (map (fun x => x ^ 2) (Np.map2 Rminus a b)) = 0 -> a = b.
Proof.
  induction a as [|x a IH]; intros [|y b] Hlen Hs; try discriminate Hlen;
    [reflexivity|].
  injection Hlen as Hlen.
  change (Np.sum (map (fun x => x ^ 2) (Np.map2 Rminus (x :: a) (y :: b))))
    with ((x - y) ^ 2
          + Np.sum (map (fun x => x ^ 2) (Np.map2 Rminus a b))) in Hs.
  pose proof (sum_squares_nonneg (Np.map2 Rminus a b)) as Hn.
  pose proof (pow2_ge_0 (x - y)) as Hx.
  assert (H0 : (x - y) ^ 2 = 0) by lra.
  assert (Hxy : x = y).
  { apply Rminus_diag_uniq. destruct (Req_dec (x - y) 0) as [e|ne]; [exact e|].
    exfalso. pose proof (pow_nonzero (x - y) 2 ne). lra. }
  f_equal; [exact Hxy | apply IH; [exact Hlen | lra]].
Qed.

Lemma sum_squares_same (a : list R) :
  Np.sum (map (fun x => x ^ 2) (Np.map2 Rminus a a)) = 0.
Proof.
  induction a as [|x a IH]; [reflexivity|].
  change (Np.sum (map (fun x => x ^ 2) (Np.map2 Rminus (x :: a) (x :: a))))
    with ((x - x) ^ 2
          + Np.sum (map (fun x => x ^ 2) (Np.map2 Rminus a a))).
  rewrite IH. ring.
Qed.

(** C7: for two fields of the same, non-zero number of cells the RMSE is
    computed (no exception), is non-negative, is the same with the two
    fields exchanged, and is 0 exactly when the fields are equal. *)
Theorem rmseValue_nonneg_sym_zero (modeled analytic : list R) :
  List.length modeled = List.length analytic ->
  (0 < List.length modeled)%nat ->
  exists r,
    Rmse.rmseValue modeled analytic = Ok r /\
    Rmse.rmseValue analytic modeled = Ok r /\
    r = sqrt (Np.mean (map (fun x => x ^ 2) (Np.map2 Rminus modeled analytic))) /\
    0 <= r /\
    (r = 0 <-> modeled = analytic).
Proof.
  intros Hlen Hpos.
  exists (sqrt (Np.mean (map (fun x => x ^ 2)
                           (Np.map2 Rminus modeled analytic)))).
  assert (Hn : 0 < INR (List.length modeled)) by (apply lt_0_INR; exact Hpos).
  split; [|split; [|split; [|split]]].
  - unfold Rmse.rmseValue. rewrite broadcast2_same_length by exact Hlen.
    reflexivity.
  - unfold Rmse.rmseValue.
    rewrite broadcast2_same_length by (symmetry; exact Hlen).
    cbn [bind]. rewrite (squares_swap analytic modeled). reflexivity.
  - reflexivity.
  - apply sqrt_pos.
  - unfold Np.mean.
    rewrite length_map, (length_map2 Rminus _ _ Hlen).
    pose proof (sum_squares_nonneg (Np.map2 Rminus modeled analytic)) as Hs.
    split.
    + intros H0. apply sqrt_eq_0 in H0.
      * apply sum_squares_zero; [exact Hlen|].
        apply Rmult_eq_compat_r with (r := INR (List.length modeled)) in H0.
        unfold Rdiv in H0. rewrite Rmult_assoc, Rinv_l, Rmult_1_r in H0 by lra.
        lra.
      * apply Rmult_le_pos; [exact Hs|].
        apply Rlt_le, Rinv_0_lt_compat, Hn.
    + intros <-. rewrite sum_squares_same. unfold Rdiv.
      rewrite Rmult_0_l. apply sqrt_0.
Qed.

Lemma rmseValue_nonneg_sym_zero_witness :
  exists r,
    Rmse.rmseValue [1; 0] [0; 0] = Ok r /\
    Rmse.rmseValue [0; 0] [1; 0] = Ok r /\
    r = sqrt (Np.mean (map (fun x => x ^ 2) (Np.map2 Rminus [1; 0] [0; 0]))) /\
    0 <= r /\
    (r = 0 <-> [1; 0] = [0; 0]).
Proof.
  apply (rmseValue_nonneg_sym_zero [1; 0] [0; 0]).
  - reflexivity.
  - simpl. lia.
Defined.

(** ** The least-squares line *)

Lemma sum_map_minus (c : R) (x : list R) :
  Np.sum (map (fun u => u - c) x) = Np.sum x - INR (List.length x) * c.
Proof.
  induction x as [|u x IH].
  - unfold Np.sum. simpl. ring.
  - cbn [map List.length]. rewrite !sum_cons, S_INR, IH. ring.
Qed.

Lemma dev_mean (x : list R) :
  Np.sum (map (fun u => u - Np.mean x) x) = 0.
Proof.
  rewrite sum_map_minus. unfold Np.mean.
  destruct x as [|u x].
  - unfold Np.sum. simpl. ring.
  - field. apply not_0_INR. discriminate.
Qed.

Lemma sq_dev_nonneg (c : R) (x : list R) : 0 <= Polyfit.sq_dev c x.
Proof.
  unfold Polyfit.sq_dev. induction x as [|u x IH].
  - unfold Np.sum. simpl. lra.
  - cbn [map]. rewrite sum_cons. pose proof (pow2_ge_0 (u - c)). lra.
Qed.

Lemma sq_dev_zero_all (c : R) (x : list R) :
  Polyfit.sq_dev c x = 0 -> forall u, In u x -> u = c.
Proof.
  unfold Polyfit.sq_dev. induction x as [|w x IH]; intros H u Hin.
  - destruct Hin.
  - cbn [map] in H. rewrite sum_cons in H.
    pose proof (pow2_ge_0 (w - c)) as Hw.
    pose proof (sq_dev_nonneg c x) as Hx. unfold Polyfit.sq_dev in Hx.
    destruct Hin as [<-|Hin].
    + destruct (Req_dec (w - c) 0) as [e|ne]; [lra|].
      pose proof (pow_nonzero (w - c) 2 ne). lra.
    + apply IH; [lra | exact Hin].
Qed.

Lemma co_dev_zero (cx cy : R) (x : list R) :
  (forall u, In u x -> u = cx) ->
  forall y, Polyfit.co_dev cx cy x y = 0.
Proof.
  unfold Polyfit.co_dev. induction x as [|u x IH]; intros H [|v y];
    try reflexivity.
  cbn [Np.map2]. rewrite sum_cons, IH.
  - rewrite (H u) by (left; reflexivity). ring.
  - intros w Hw. apply H. right. exact Hw.
Qed.

(** The residual sum of any line, about any centre [(cx, cy)]. *)
Lemma ssr_expand (cx cy m b : R) (x : list R) :
  forall y, List.length x = List.length y ->
    Polyfit.ssr m b x y
    = Polyfit.sq_dev cy y + m ^ 2 * Polyfit.sq_dev cx x
      - 2 * m * Polyfit.co_dev cx cy x y
      + INR (List.length x) * (cy - m * cx - b) ^ 2
      + 2 * (cy - m * cx - b) * Np.sum (map (fun v => v - cy) y)
      - 2 * (cy - m * cx - b) * m * Np.sum (map (fun u => u - cx) x).
Proof.
  unfold Polyfit.ssr, Polyfit.sq_dev, Polyfit.co_dev.
  induction x as [|u x IH]; intros [|v y] Hlen; try discriminate Hlen.
  - unfold Np.sum. simpl. ring.
  - injection Hlen as Hlen.
    cbn [map Np.map2 List.length]. rewrite !sum_cons, S_INR.
    rewrite (IH y Hlen). ring.
Qed.

(** About the two means the residual sum splits into a part that depends on
    the slope and a part that depends on the offset at the centre. *)
Lemma ssr_centred (m b : R) (x y : list R) :
  List.length x = List.length y ->
  Polyfit.ssr m b x y
  = Polyfit.sq_dev (Polyfit.xbar y) y + m ^ 2 * Polyfit.Sxx x
    - 2 * m * Polyfit.Sxy x y
    + INR (List.length x) * (Polyfit.xbar y - m * Polyfit.xbar x - b) ^ 2.
Proof.
  intros Hlen.
  rewrite (ssr_expand (Polyfit.xbar x) (Polyfit.xbar y) m b x y Hlen).
  pose proof (dev_mean x) as Hx. pose proof (dev_mean y) as Hy.
  fold (Polyfit.xbar x) in Hx. fold (Polyfit.xbar y) in Hy.
  rewrite Hx, Hy. unfold Polyfit.Sxx, Polyfit.Sxy. ring.
Qed.

(** The closed form is a least-squares line: no line has a smaller sum of
    squared residuals. *)
Lemma fit_minimises (x y : list R) :
  List.length x = List.length y ->
  forall m b,
    Polyfit.ssr (Polyfit.slope x y) (Polyfit.intercept x y) x y
    <= Polyfit.ssr m b x y.
Proof.
  intros Hlen m b.
  rewrite !(ssr_centred _ _ x y Hlen).
  unfold Polyfit.intercept.
  set (m0 := Polyfit.slope x y).
  replace (Polyfit.xbar y - m0 * Polyfit.xbar x
           - (Polyfit.xbar y - m0 * Polyfit.xbar x)) with 0 by ring.
  pose proof (pos_INR (List.length x)) as Hn.
  pose proof (pow2_ge_0 (Polyfit.xbar y - m * Polyfit.xbar x - b)) as Hc.
  assert (Hnc : 0 <= INR (List.length x)
                     * (Polyfit.xbar y - m * Polyfit.xbar x - b) ^ 2)
    by (apply Rmult_le_pos; assumption).
  pose proof (sq_dev_nonneg (Polyfit.xbar x) x) as Hxx.
  fold (Polyfit.Sxx x) in Hxx.
  destruct (Req_dec (Polyfit.Sxx x) 0) as [Hz|Hnz].
  - assert (Hxy : Polyfit.Sxy x y = 0).
    { unfold Polyfit.Sxy. apply co_dev_zero.
      apply sq_dev_zero_all. exact Hz. }
    rewrite Hz, Hxy. lra.
  - assert (Hxy : Polyfit.Sxy x y = m0 * Polyfit.Sxx x).
    { unfold m0, Polyfit.slope. field. exact Hnz. }
    rewrite Hxy.
    assert (Hsq : 0 <= Polyfit.Sxx x * (m - m0) ^ 2).
    { apply Rmult_le_pos; [exact Hxx | apply pow2_ge_0]. }
    nra.
Qed.

Lemma map2_map_r (g : R -> R -> R) (f : R -> R) (x : list R) :
  Np.map2 g x (map f x) = map (fun u => g u (f u)) x.
Proof.
  induction x as [|u x IH]; [reflexivity|].
  cbn [map Np.map2]. rewrite IH. reflexivity.
Qed.

Lemma sum_map_affine (a m : R) (x : list R) :
  Np.sum (map (fun u => a + m * u) x) = INR (List.length x) * a + m * Np.sum x.
Proof.
  induction x as [|u x IH].
  - unfold Np.sum. simpl. ring.
  - cbn [map List.length]. rewrite !sum_cons, S_INR, IH. ring.
Qed.

Lemma mean_affine (a m : R) (x : list R) :
  x <> [] ->
  Np.mean (map (fun u => a + m * u) x) = a + m * Np.mean x.
Proof.
  intros Hne. unfold Np.mean. rewrite length_map, sum_map_affine.
  field. apply not_0_INR. destruct x; [contradiction | discriminate].
Qed.

Lemma sum_map_scale (m : R) (f : R -> R) (x : list R) :
  Np.sum (map (fun u => m * f u) x) = m * Np.sum (map f x).
Proof.
  induction x as [|u x IH].
  - unfold Np.sum. simpl. ring.
  - cbn [map]. rewrite !sum_cons, IH. ring.
Qed.

(** Data that lie on a line, with two different abscissae: the fitted slope
    is the slope of that line. *)
Lemma slope_exact (a m : R) (x : list R) (u1 u2 : R) :
  In u1 x -> In u2 x -> u1 <> u2 ->
  Polyfit.slope x (map (fun u => a + m * u) x) = m.
Proof.
  intros H1 H2 Hne.
  assert (Hx : x <> []) by (intros ->; destruct H1).
  assert (Hxy : Polyfit.Sxy x (map (fun u => a + m * u) x)
                = m * Polyfit.Sxx x).
  { unfold Polyfit.Sxy, Polyfit.Sxx, Polyfit.co_dev, Polyfit.sq_dev,
      Polyfit.xbar.
    rewrite map2_map_r, (mean_affine a m x Hx), <- sum_map_scale.
    f_equal. apply map_ext. intros u. ring. }
  assert (Hnz : Polyfit.Sxx x <> 0).
  { intros Hz. apply Hne.
    rewrite (sq_dev_zero_all _ _ Hz u1 H1), (sq_dev_zero_all _ _ Hz u2 H2).
    reflexivity. }
  unfold Polyfit.slope. rewrite Hxy. field. exact Hnz.
Qed.

(** ** The order of convergence *)

Lemma fit_Ok (cells : list nat) (ydata : list R) :
  cells <> [] -> List.length cells = List.length ydata ->
  fit cells ydata
  = Ok (Polyfit.slope (map Np.log10 (map INR cells)) (map Np.log10 ydata),
        Polyfit.intercept (map Np.log10 (map INR cells))
          (map Np.log10 ydata)).
Proof.
  intros Hne Hlen. unfold fit, Polyfit.polyfit1.
  destruct cells as [|n cells]; [contradiction|].
  cbn [map]. rewrite <- (map_cons Np.log10 (INR n) (map INR cells)).
  rewrite <- (map_cons INR n cells).
  rewrite !length_map, Hlen, Nat.eqb_refl. reflexivity.
Qed.

(** C4: for cell counts and RMSE values, all positive, in two lists of the
    same length, at least 2, the fit succeeds and the order of convergence
    is twice the absolute value of the slope of a least-squares line through
    the points (log10 of the cell count, log10 of the RMSE); it is not
    negative. *)
Theorem order_twice_abs_slope (cells : list nat) (ydata : list R) :
  List.length cells = List.length ydata ->
  (2 <= List.length cells)%nat ->
  (forall n, In n cells -> (0 < n)%nat) ->
  (forall y, In y ydata -> 0 < y) ->
  exists m b,
    fit cells ydata = Ok (m, b) /\
    order (m, b) = Rabs m * 2 /\
    0 <= order (m, b) /\
    forall m' b',
      Polyfit.ssr m b (map Np.log10 (map INR cells)) (map Np.log10 ydata)
      <= Polyfit.ssr m' b' (map Np.log10 (map INR cells))
           (map Np.log10 ydata).
Proof.
  intros Hlen H2 _ _.
  eexists. eexists. split; [|split; [|split]].
  - apply fit_Ok; [|exact Hlen].
    intros ->. simpl in H2. lia.
  - reflexivity.
  - unfold order. cbn [fst].
    pose proof (Rabs_pos (Polyfit.slope (map Np.log10 (map INR cells))
                            (map Np.log10 ydata))).
    lra.
  - apply fit_minimises. rewrite !length_map. exact Hlen.
Qed.

Lemma order_twice_abs_slope_witness :
  exists m b,
    fit [100%nat; 400%nat] [0.1; 0.025] = Ok (m, b) /\
    order (m, b) = Rabs m * 2 /\
    0 <= order (m, b) /\
    forall m' b',
      Polyfit.ssr m b (map Np.log10 (map INR [100%nat; 400%nat]))
        (map Np.log10 [0.1; 0.025])
      <= Polyfit.ssr m' b' (map Np.log10 (map INR [100%nat; 400%nat]))
           (map Np.log10 [0.1; 0.025]).
Proof.
  apply (order_twice_abs_slope [100%nat; 400%nat] [0.1; 0.025]).
  - reflexivity.
  - simpl. lia.
  - intros n [<-|[<-|[]]]; lia.
  - intros y [<-|[<-|[]]]; lra.
Defined.

Lemma ln_10_pos : 0 < ln 10.
Proof. rewrite <- ln_1. apply ln_increasing; lra. Qed.

Lemma log10_power_law (C e x : R) :
  0 < C -> 0 < x ->
  Np.log10 (C * Rpower x e) = Np.log10 C + e * Np.log10 x.
Proof.
  intros HC Hx. unfold Np.log10.
  rewrite ln_mult by (try apply exp_pos; assumption).
  unfold Rpower. rewrite ln_exp.
  pose proof ln_10_pos. field. lra.
Qed.

Lemma log10_INR_inj (n1 n2 : nat) :
  (0 < n1)%nat -> (0 < n2)%nat ->
  Np.log10 (INR n1) = Np.log10 (INR n2) -> n1 = n2.
Proof.
  intros H1 H2 H. unfold Np.log10 in H.
  pose proof ln_10_pos as H10.
  apply INR_eq, ln_inv; try (apply lt_0_INR; assumption).
  apply Rmult_eq_reg_r with (/ ln 10); [exact H|].
  apply Rinv_neq_0_compat. lra.
Qed.

(** On data that follow a power law [RMSE = C * N ^ (- p / 2)] exactly the
    order of convergence is [p]. *)
Lemma order_of_power_law (p C : R) (cells : list nat) (n1 n2 : nat) :
  0 < p -> 0 < C ->
  (forall n, In n cells -> (0 < n)%nat) ->
  In n1 cells -> In n2 cells -> n1 <> n2 ->
  exists m b,
    fit cells (map (fun n => C * Rpower (INR n) (- p / 2)) cells)
      = Ok (m, b) /\
    order (m, b) = p.
Proof.
  intros Hp HC Hpos H1 H2 Hne.
  eexists. eexists. split.
  - apply fit_Ok; [intros ->; destruct H1 | rewrite length_map; reflexivity].
  - unfold order. cbn [fst].
    assert (Hy : map Np.log10
                   (map (fun n => C * Rpower (INR n) (- p / 2)) cells)
                 = map (fun u => Np.log10 C + (- p / 2) * u)
                     (map Np.log10 (map INR cells))).
    { rewrite !map_map. apply map_ext_in. intros n Hn.
      apply log10_power_law; [exact HC|].
      apply lt_0_INR, Hpos, Hn. }
    rewrite Hy.
    rewrite (slope_exact _ _ _ (Np.log10 (INR n1)) (Np.log10 (INR n2))).
    + rewrite Rabs_left by lra. lra.
    + rewrite map_map. apply in_map_iff. exists n1. split; [reflexivity|exact H1].
    + rewrite map_map. apply in_map_iff. exists n2. split; [reflexivity|exact H2].
    + intros H. apply Hne. apply log10_INR_inj; auto.
Qed.

(** C8: for an exponent p > 0, a constant C > 0 and positive cell counts N,
    two of them different, with RMSE = C * N ^ (- p / 2), the fit succeeds
    and the order of convergence is p; for p = 2 it is within 1e-6 of 2. *)
Theorem order_recovers_exponent (p C : R) (cells : list nat) (n1 n2 : nat) :
  0 < p -> 0 < C ->
  (forall n, In n cells -> (0 < n)%nat) ->
  In n1 cells -> In n2 cells -> n1 <> n2 ->
  exists m b,
    fit cells (map (fun n => C * Rpower (INR n) (- p / 2)) cells)
      = Ok (m, b) /\
    order (m, b) = p /\
    (p = 2 -> Rabs (order (m, b) - 2) < 0.000001).
Proof.
  intros Hp HC Hpos H1 H2 Hne.
  destruct (order_of_power_law p C cells n1 n2 Hp HC Hpos H1 H2 Hne)
    as (m & b & Hfit & Hord).
  exists m, b. split; [exact Hfit | split; [exact Hord|]].
  intros ->. rewrite Hord.
  replace (2 - 2) with 0 by ring. rewrite Rabs_R0. lra.
Qed.

Lemma order_recovers_exponent_witness :
  exists m b,
    fit [100%nat; 400%nat]
      (map (fun n => 10 * Rpower (INR n) (- 2 / 2)) [100%nat; 400%nat])
      = Ok (m, b) /\
    order (m, b) = 2 /\
    (2 = 2 -> Rabs (order (m, b) - 2) < 0.000001).
Proof.
  apply (order_recovers_exponent 2 10 [100%nat; 400%nat] 100%nat 400%nat).
  - lra.
  - lra.
  - intros n [<-|[<-|[]]]; lia.
  - left; reflexivity.
  - right; left; reflexivity.
  - discriminate.
Defined.

(** ** The thresholds *)

Lemma check_below (conv conv_thresh conv_max : R) :
  conv < conv_thresh ->
  check conv conv_thresh conv_max
  = ([], Raise (ValueError_order conv conv_thresh)).
Proof.
  intros H. unfold check.
  destruct (Rlt_dec conv conv_thresh) as [_|n]; [reflexivity | contradiction].
Qed.

Lemma check_above (conv conv_thresh conv_max : R) :
  ~ conv < conv_thresh -> conv > conv_max ->
  check conv conv_thresh conv_max = ([Warn conv conv_max], Ok tt).
Proof.
  intros H1 H2. unfold check.
  destruct (Rlt_dec conv conv_thresh) as [l|_]; [contradiction|].
  destruct (Rgt_dec conv conv_max) as [_|n]; [reflexivity | contradiction].
Qed.

Lemma check_within (conv conv_thresh conv_max : R) :
  ~ conv < conv_thresh -> ~ conv > conv_max ->
  check conv conv_thresh conv_max = ([], Ok tt).
Proof.
  intros H1 H2. unfold check.
  destruct (Rlt_dec conv conv_thresh) as [l|_]; [contradiction|].
  destruct (Rgt_dec conv conv_max) as [g|_]; [contradiction | reflexivity].
Qed.

Lemma bindM_lift_Ok {A B : Type} (a : A) (k : A -> M B) :
  bindM (lift (Ok a)) k = k a.
Proof. unfold bindM, lift. destruct (k a). reflexivity. Qed.

Lemma bindM_lift_Raise {A B : Type} (e : exn) (k : A -> M B) :
  bindM (lift (Raise e)) k = ([], Raise e).
Proof. reflexivity. Qed.

Lemma bindM_emit {B : Type} (e : effect) (k : unit -> M B) :
  bindM (emit e) k = (e :: fst (k tt), snd (k tt)).
Proof. unfold bindM, emit. destruct (k tt). reflexivity. Qed.

(** After a successful fit: the plot, then the check. *)
Lemma converge_eq (self : Analysis) (cells : list nat) (ydata : list R)
  (p : R * R) :
  fit cells ydata = Ok p ->
  converge self cells ydata
  = (plot cells ydata p
       ++ fst (check (order p) (fst (thresholds self))
                 (snd (thresholds self))),
     snd (check (order p) (fst (thresholds self)) (snd (thresholds self)))).
Proof.
  intros Hfit. unfold converge. rewrite Hfit, bindM_lift_Ok.
  destruct (thresholds self) as [ct cm].
  cbv zeta. rewrite !bindM_emit. cbn [fst snd]. reflexivity.
Qed.

Lemma plot_no_warning (cells : list nat) (ydata : list R) (p : R * R)
  (c x : R) : ~ In (Warn c x) (plot cells ydata p).
Proof.
  unfold plot. cbn [In]. intros H.
  repeat (destruct H as [H|H]; [discriminate H|]). exact H.
Qed.

Lemma converge_fails (self : Analysis) (cells : list nat) (ydata : list R)
  (p : R * R) :
  fit cells ydata = Ok p ->
  (fails (converge self cells ydata)
   <-> order p < fst (thresholds self)).
Proof.
  intros Hfit. rewrite (converge_eq self _ _ p Hfit). unfold fails.
  cbn [snd].
  destruct (Rlt_dec (order p) (fst (thresholds self))) as [l|n].
  - rewrite check_below by exact l. cbn [snd].
    split; [intros _; exact l | intros _; eexists; reflexivity].
  - split; [|contradiction].
    intros [e He]. exfalso.
    destruct (Rgt_dec (order p) (snd (thresholds self))) as [g|ng].
    + rewrite check_above in He by assumption. discriminate He.
    + rewrite check_within in He by assumption. discriminate He.
Qed.

Lemma converge_warns (self : Analysis) (cells : list nat) (ydata : list R)
  (p : R * R) :
  fit cells ydata = Ok p ->
  (warns (converge self cells ydata)
   <-> order p > snd (thresholds self)
       /\ ~ order p < fst (thresholds self)).
Proof.
  intros Hfit. rewrite (converge_eq self _ _ p Hfit). unfold warns.
  cbn [fst].
  destruct (Rlt_dec (order p) (fst (thresholds self))) as [l|n].
  - rewrite check_below by exact l. cbn [fst]. rewrite app_nil_r.
    split; [|intros [_ H]; contradiction].
    intros (c & x & H). exfalso. exact (plot_no_warning _ _ _ _ _ H).
  - destruct (Rgt_dec (order p) (snd (thresholds self))) as [g|ng].
    + rewrite check_above by assumption. cbn [fst].
      split; [intros _; split; assumption|].
      intros _. exists (order p), (snd (thresholds self)).
      apply in_or_app. right. left. reflexivity.
    + rewrite check_within by assumption. cbn [fst]. rewrite app_nil_r.
      split; [|intros [H _]; contradiction].
      intros (c & x & H). exfalso. exact (plot_no_warning _ _ _ _ _ H).
Qed.

Lemma Rpower_neg1 (x : R) : 0 < x -> Rpower x (- 2 / 2) = / x.
Proof.
  intros Hx. replace (- 2 / 2) with (- (1)) by lra.
  rewrite Rpower_Ropp, Rpower_1 by exact Hx. reflexivity.
Qed.

Lemma sample_power_law :
  Sample.ydata
  = map (fun n => 10 * Rpower (INR n) (- 2 / 2)) Sample.cells.
Proof.
  unfold Sample.ydata, Sample.cells. cbn [map].
  rewrite !INR_IZR_INZ.
  change (Z.of_nat 100) with 100%Z.
  change (Z.of_nat 400) with 400%Z.
  change (Z.of_nat 1600) with 1600%Z.
  rewrite !Rpower_neg1 by lra.
  replace (10 * / 100) with 0.1 by lra.
  replace (10 * / 400) with 0.025 by lra.
  replace (10 * / 1600) with 0.00625 by lra.
  reflexivity.
Qed.

Lemma sample_order :
  exists p, fit Sample.cells Sample.ydata = Ok p /\ order p = 2.
Proof.
  rewrite sample_power_law.
  destruct (order_of_power_law 2 10 Sample.cells 100%nat 400%nat)
    as (m & b & Hfit & Hord).
  - lra.
  - lra.
  - intros n [<-|[<-|[<-|[]]]]; lia.
  - left; reflexivity.
  - right; left; reflexivity.
  - discriminate.
  - exists (m, b). split; assumption.
Qed.

(** ** Where the ValueError of line 117 can come from *)

Lemma plain_bind {A B : Type} (m : result A) (k : A -> result B) :
  no_order_error m -> (forall a, no_order_error (k a)) ->
  no_order_error (bind m k).
Proof.
  intros Hm Hk c t. destruct m as [a|e]; simpl.
  - apply Hk.
  - intros H. injection H as ->. exact (Hm c t eq_refl).
Qed.

Lemma plain_Ok {A : Type} (a : A) : no_order_error (Ok a).
Proof. intros c t. discriminate. Qed.

Lemma plain_get_local {A : Type} (name : string) (v : option A) :
  no_order_error (get_local name v).
Proof. intros c t. destruct v; discriminate. Qed.

Lemma plain_float (s : string) : no_order_error (Py.float s).
Proof.
  intros c t. unfold Py.float.
  destruct s; [discriminate|]. destruct (Py.digits _ _); discriminate.
Qed.

Lemma plain_index {A : Type} (a : list A) (i : nat) :
  no_order_error (Py.index a i).
Proof. intros c t. unfold Py.index. destruct (nth_error a i); discriminate. Qed.

Lemma plain_open_mesh (w : WorkDir) (name : string) :
  no_order_error (open_mesh w name).
Proof. intros c t. unfold open_mesh. destruct (mesh_file w name); discriminate. Qed.

Lemma plain_open_tracer (w : WorkDir) (name : string) :
  no_order_error (open_tracer w name).
Proof.
  intros c t. unfold open_tracer. destruct (tracer_file w name); discriminate.
Qed.

Lemma plain_broadcast2 (f : R -> R -> R) (a b : list R) :
  no_order_error (Np.broadcast2 f a b).
Proof.
  intros c t. unfold Np.broadcast2.
  destruct (List.length a =? List.length b)%nat; [discriminate|].
  destruct a as [|x [|x' a]]; destruct b as [|y [|y' b]]; discriminate.
Qed.

Lemma plain_getmask (a : list R) (mask : list bool) :
  no_order_error (Np.getmask a mask).
Proof.
  intros c t. unfold Np.getmask.
  destruct (List.length a =? List.length mask)%nat; discriminate.
Qed.

Lemma plain_setmask (a : list R) (mask : list bool) (vals : list R) :
  no_order_error (Np.setmask a mask vals).
Proof.
  intros c t. unfold Np.setmask.
  destruct (List.length a =? List.length mask)%nat; discriminate.
Qed.

Lemma plain_time_loop (eval_time : R) (stamps : list string) :
  forall j l, no_order_error (Rmse.time_loop eval_time stamps j l).
Proof.
  induction stamps as [|s rest IH]; intros j l.
  - apply plain_Ok.
  - cbn [Rmse.time_loop]. apply plain_bind; [apply plain_float|].
    intros d. destruct (Req_dec_T (d - 1) eval_time); [apply plain_Ok | apply IH].
Qed.

Lemma plain_find_time (eval_time : R) (stamps : list string) :
  no_order_error (Rmse.find_time eval_time stamps).
Proof.
  unfold Rmse.find_time.
  repeat (apply plain_bind;
          [first [apply plain_time_loop | apply plain_get_local
                 | apply plain_float] | intros ?]).
  apply plain_Ok.
Qed.

Lemma plain_distances (R0 latCent nlon : R) (latC lonC : list R) :
  no_order_error (Rmse.distances R0 latCent nlon latC lonC).
Proof.
  unfold Rmse.distances.
  apply plain_bind; [apply plain_broadcast2 | intros bc].
  apply plain_bind; [apply plain_broadcast2 | intros s].
  apply plain_Ok.
Qed.

Lemma plain_analytic (psi radius0 : R) (init0 temp : list R) :
  no_order_error (Rmse.analytic psi radius0 init0 temp).
Proof.
  unfold Rmse.analytic.
  apply plain_bind; [apply plain_getmask | intros sel].
  apply plain_setmask.
Qed.

Lemma plain_rmseValue (tracerF tracer : list R) :
  no_order_error (Rmse.rmseValue tracerF tracer).
Proof.
  unfold Rmse.rmseValue.
  apply plain_bind; [apply plain_broadcast2 | intros diff].
  apply plain_Ok.
Qed.

Lemma plain_rmse (cfg : Config) (w : WorkDir) (mesh_name : string) :
  no_order_error (Rmse.rmse cfg w mesh_name).
Proof.
  unfold Rmse.rmse.
  apply plain_bind; [apply plain_open_mesh | intros ds_mesh].
  apply plain_bind; [apply plain_open_tracer | intros ds_init].
  apply plain_bind; [apply plain_open_tracer | intros ds].
  apply plain_bind; [apply plain_find_time | intros [l t]].
  apply plain_bind; [apply plain_index | intros init0].
  apply plain_bind; [apply plain_distances | intros temp].
  apply plain_bind; [apply plain_analytic | intros tracer].
  apply plain_bind; [apply plain_get_local | intros j].
  apply plain_bind; [apply plain_index | intros tracerF].
  apply plain_bind; [apply plain_rmseValue | intros v].
  apply plain_Ok.
Qed.

Lemma plain_collect (subdir : R -> string) (self : Analysis) (rs : list R) :
  forall xdata ydata, no_order_error (collect subdir self rs xdata ydata).
Proof.
  induction rs as [|r rs IH]; intros xdata ydata.
  - apply plain_Ok.
  - cbn [collect]. apply plain_bind; [apply plain_rmse | intros [v n]].
    apply IH.
Qed.

Lemma plain_fit (cells : list nat) (ydata : list R) :
  no_order_error (fit cells ydata).
Proof.
  intros c t. unfold fit, Polyfit.polyfit1.
  destruct (map Np.log10 (map INR cells)); [discriminate|].
  destruct (_ =? _)%nat; discriminate.
Qed.

(** ** The whole of [run] *)

Lemma run_collected (subdir : R -> string) (self : Analysis)
  (d : list nat * list R) :
  collect subdir self (resolutions self) [] [] = Ok d ->
  run subdir self
  = (SwitchBackend "Agg" :: fst (converge self (fst d) (snd d)),
     snd (converge self (fst d) (snd d))).
Proof.
  intros H. unfold run. rewrite bindM_emit, H, bindM_lift_Ok. reflexivity.
Qed.

Lemma run_not_collected (subdir : R -> string) (self : Analysis) (e : exn) :
  collect subdir self (resolutions self) [] [] = Raise e ->
  run subdir self = ([SwitchBackend "Agg"], Raise e).
Proof.
  intros H. unfold run. rewrite bindM_emit, H, bindM_lift_Raise. reflexivity.
Qed.

Lemma converge_not_fitted (self : Analysis) (cells : list nat)
  (ydata : list R) (e : exn) :
  fit cells ydata = Raise e -> converge self cells ydata = ([], Raise e).
Proof. intros H. unfold converge. rewrite H, bindM_lift_Raise. reflexivity. Qed.

(** C10: when [run] ends in the ValueError of line 117, the cell counts
    and the RMSE values had been collected and fitted, the order is below
    the minimum threshold, and the effects of the run are the choice of the
    backend followed by the plot, whose last effect is the writing of
    convergence.png: the image is saved before the exception is raised. *)
Theorem plot_saved_before_failure (subdir : R -> string) (self : Analysis)
  (conv conv_thresh : R) :
  snd (run subdir self) = Raise (ValueError_order conv conv_thresh) ->
  exists d p pre,
    collect subdir self (resolutions self) [] [] = Ok d /\
    fit (fst d) (snd d) = Ok p /\
    conv = order p /\
    conv_thresh = fst (thresholds self) /\
    conv < conv_thresh /\
    fst (run subdir self)
      = SwitchBackend "Agg" :: plot (fst d) (snd d) p /\
    fst (run subdir self) = pre ++ [Savefig "convergence.png"].
Proof.
  intros H.
  destruct (collect subdir self (resolutions self) [] []) as [d|e] eqn:Hc.
  2:{ rewrite (run_not_collected _ _ _ Hc) in H. cbn [snd] in H.
      exfalso. apply (plain_collect subdir self (resolutions self) [] []
                        conv conv_thresh).
      rewrite Hc. injection H as ->. reflexivity. }
  rewrite (run_collected _ _ _ Hc) in *. cbn [fst snd] in *.
  destruct (fit (fst d) (snd d)) as [p|e] eqn:Hf.
  2:{ rewrite (converge_not_fitted _ _ _ _ Hf) in H. cbn [snd] in H.
      exfalso. apply (plain_fit (fst d) (snd d) conv conv_thresh).
      rewrite Hf. injection H as ->. reflexivity. }
  rewrite (converge_eq self _ _ p Hf) in *. cbn [fst snd] in *.
  exists d, p.
  destruct (Rlt_dec (order p) (fst (thresholds self))) as [l|n].
  - rewrite check_below in * by exact l. cbn [fst snd] in *.
    injection H as <- <-.
    exists (SwitchBackend "Agg" ::
            [ Loglog (map INR (fst d))
                (map (fun x => Rpower x (fst p) * Rpower 10 (snd p))
                   (map INR (fst d))) "k";
              Loglog (map INR (fst d)) (snd d) "or";
              Annotate (order p);
              Xlabel "Number of Grid Cells";
              Ylabel "L2 Norm" ]).
    rewrite app_nil_r.
    repeat split; try reflexivity; assumption.
  - exfalso.
    destruct (Rgt_dec (order p) (snd (thresholds self))) as [g|ng].
    + rewrite check_above in H by assumption. discriminate H.
    + rewrite check_within in H by assumption. discriminate H.
Qed.

(** ** [rmse] on well-formed files *)

Lemma distances_map2 (R0 : R) (f g h : R -> R) (a : list R) :
  forall b,
    map (fun v => R0 * acos v)
      (Np.map2 Rplus (map f a) (Np.map2 Rmult (map g a) (map h b)))
    = Np.map2 (fun la lo => R0 * acos (f la + g la * h lo)) a b.
Proof.
  induction a as [|x a IH]; intros [|y b]; try reflexivity.
  cbn [map Np.map2]. rewrite IH. reflexivity.
Qed.

(** Cell by cell, [distances] is the great-circle distance from the new
    centre. *)
Lemma distances_cells (R0 latCent nlon : R) (latC lonC : list R) :
  List.length latC = List.length lonC ->
  Rmse.distances R0 latCent nlon latC lonC
  = Ok (Np.map2 (great_circle R0 latCent nlon) latC lonC).
Proof.
  intros Hlen. unfold Rmse.distances.
  rewrite broadcast2_same_length by (rewrite !length_map; exact Hlen).
  cbn [bind].
  rewrite broadcast2_same_length.
  - cbn [bind]. f_equal.
    apply (distances_map2 R0 (fun la => sin latCent * sin la)
             (fun la => cos latCent * cos la) (fun lo => cos (lo - nlon))).
  - rewrite length_map2 by (rewrite !length_map; exact Hlen).
    rewrite !length_map. reflexivity.
Qed.

(** With the three files in place, a matching stamp and arrays of one
    length, [rmse] returns the root-mean-square difference between the
    modelled row of the matched step and the analytic tracer, and the
    number of cells. *)
Lemma rmse_returns (cfg : Config) (w : WorkDir) (mesh_name : string)
  (dm : MeshDs) (di ds : TracerDs) (l : Rmse.locals) (t : R) (j : nat)
  (init0 tracerF : list R) :
  mesh_file w (mesh_name ++ "_mesh.nc") = Some dm ->
  tracer_file w (mesh_name ++ "_init.nc") = Some di ->
  tracer_file w (mesh_name ++ "_output.nc") = Some ds ->
  Rmse.find_time (convergence_eval_time cfg) (xtime ds) = Ok (l, t) ->
  Rmse.sliceTime l = Some j ->
  nth_error (tracer1 di) 0 = Some init0 ->
  nth_error (tracer1 ds) j = Some tracerF ->
  List.length (latCell dm) = List.length (lonCell dm) ->
  List.length init0 = List.length (latCell dm) ->
  List.length tracerF = List.length init0 ->
  Rmse.rmse cfg w mesh_name
  = Ok (sqrt (Np.mean (map (fun x => x ^ 2)
          (Np.map2 Rminus tracerF
             (map (bell_cell (psi0 cfg) (radius cfg))
                (Np.map2
                   (great_circle (sphere_radius dm) (lat_center cfg)
                      (Rmse.newLon (lon_center cfg) (sphere_radius dm)
                         (convergence_eval_time cfg) t))
                   (latCell dm) (lonCell dm)))))),
        List.length init0).
Proof.
  intros Hm Hi Ho Hft Hj Hi0 HtF Hll Hil HFl.
  unfold Rmse.rmse, open_mesh, open_tracer, Py.index.
  rewrite Hm, Hi, Ho. cbn [bind]. rewrite Hft. cbn [bind].
  rewrite Hi0. cbn [bind].
  rewrite distances_cells by exact Hll. cbn [bind].
  rewrite analytic_cells
    by (rewrite length_map2 by exact Hll; exact Hil).
  cbn [bind]. rewrite Hj. cbn [bind get_local]. rewrite HtF. cbn [bind].
  unfold Rmse.rmseValue. rewrite broadcast2_same_length.
  - reflexivity.
  - rewrite length_map, length_map2 by exact Hll.
    rewrite HFl. exact Hil.
Qed.

(** ** A complete run *)

Lemma map2_repeat (f : R -> R -> R) (a b : R) (k : nat) :
  Np.map2 f (repeat a k) (repeat b k) = repeat (f a b) k.
Proof.
  induction k as [|k IH]; [reflexivity|].
  cbn [repeat Np.map2]. rewrite IH. reflexivity.
Qed.

Lemma sum_repeat (a : R) (k : nat) : Np.sum (repeat a k) = INR k * a.
Proof.
  induction k as [|k IH].
  - unfold Np.sum. simpl. ring.
  - cbn [repeat]. rewrite sum_cons, S_INR, IH. ring.
Qed.

Lemma sample_find_time :
  exists l,
    Rmse.find_time 1 Sample.stamps = Ok (l, 86400) /\
    Rmse.sliceTime l = Some 1%nat.
Proof.
  eexists. split.
  - unfold Rmse.find_time, Sample.stamps, Rmse.time_loop.
    change (Py.float (Py.slice 10 12 "b'0001-01-01_00:00:00'"))
      with (Ok (A:=R) 1).
    cbn [bind].
    destruct (Req_dec_T (1 - 1) 1) as [e|_]; [lra|].
    change (Py.float (Py.slice 10 12 "b'0001-01-02_00:00:00'"))
      with (Ok (A:=R) 2).
    cbn [bind].
    destruct (Req_dec_T (2 - 1) 1) as [_|ne]; [|exfalso; apply ne; lra].
    cbn [bind get_local Rmse.tt Rmse.DY].
    change (Py.float (Py.slice 13 15 "b'0001-01-02_00:00:00'"))
      with (Ok (A:=R) 0).
    change (Py.float (Py.slice 16 18 "b'0001-01-02_00:00:00'"))
      with (Ok (A:=R) 0).
    cbn [bind]. unfold Rmse.elapsed.
    replace (86400 * (2 - 1) + 0 * 3600 + 0) with 86400 by lra.
    reflexivity.
  - reflexivity.
Qed.

(** After one day the centre, started at 3.14159265, has gone once round:
    the new longitude is 3 * 3.14159265 less 2 pi. *)
Lemma sample_newLon :
  Rmse.newLon 3.14159265 6371220 1 86400 = 3 * 3.14159265 - 2 * PI.
Proof.
  unfold Rmse.newLon. rewrite distRad_eq by lra.
  pose proof PI_upper. rewrite wrap_above by lra. lra.
Qed.

(** The cells at longitude 0 are on the far side of the sphere, outside the
    bell. *)
Lemma sample_outside_bell :
  bell_cell 1 2123740
    (great_circle 6371220 0 (Rmse.newLon 3.14159265 6371220 1 86400) 0 0)
  = 0.
Proof.
  rewrite sample_newLon. unfold bell_cell, great_circle.
  pose proof PI_lower as Hl. pose proof PI_upper as Hu.
  set (nl := 3 * 3.14159265 - 2 * PI).
  set (v := sin 0 * sin 0 + cos 0 * cos 0 * cos (0 - nl)).
  destruct (Rlt_dec (6371220 * acos v) 2123740) as [Hlt|_]; [|reflexivity].
  exfalso.
  assert (Hv : v <= 0).
  { unfold v. rewrite sin_0, cos_0.
    replace (0 - nl) with (- nl) by ring. rewrite cos_neg.
    assert (cos nl <= 0) by (apply cos_le_0; unfold nl; lra). lra. }
  assert (Hb : -1 <= v <= 1).
  { unfold v. rewrite sin_0, cos_0.
    pose proof (COS_bound (0 - nl)). lra. }
  pose proof (acos_bound v) as [Ha0 _].
  assert (Hc : 0 < cos (acos v)) by (apply cos_gt_0; lra).
  rewrite (cos_acos v Hb) in Hc. lra.
Qed.

(** On a mesh of [k] cells, with the modelled tracer [c] in every cell,
    the RMSE is [c]. *)
Lemma sample_rmse (conv_thresh conv_max : R) (w : WorkDir) (name : string)
  (k : nat) (c : R) :
  mesh_file w (name ++ "_mesh.nc") = Some (Sample.mesh_of k) ->
  tracer_file w (name ++ "_init.nc") = Some (Sample.init_of k) ->
  tracer_file w (name ++ "_output.nc") = Some (Sample.output_of k c) ->
  (0 < k)%nat -> 0 <= c ->
  Rmse.rmse (config (Sample.analysis conv_thresh conv_max w)) w name
  = Ok (c, k).
Proof.
  intros Hm Hi Ho Hk Hc.
  destruct sample_find_time as (l & Hft & Hj).
  rewrite (rmse_returns
             (config (Sample.analysis conv_thresh conv_max w))
             w name _ _ _ l 86400 1 (repeat 0 k) (repeat c k)
             Hm Hi Ho Hft Hj eq_refl eq_refl eq_refl eq_refl).
  2:{ rewrite !repeat_length. reflexivity. }
  cbn [config Sample.analysis psi0 radius lat_center lon_center
       convergence_eval_time sphere_radius latCell lonCell Sample.mesh_of].
  rewrite map2_repeat, map_repeat, sample_outside_bell, map2_repeat,
    map_repeat.
  unfold Np.mean. rewrite sum_repeat, !repeat_length.
  replace (INR k * (c - 0) ^ 2 / INR k) with (c * c).
  - rewrite sqrt_square by exact Hc. reflexivity.
  - field. apply not_0_INR. lia.
Qed.

Lemma sample_collect (conv_thresh conv_max : R) :
  collect Sample.subdir (Sample.analysis conv_thresh conv_max Sample.dir)
    [240; 120; 60] [] []
  = Ok (Sample.cells, Sample.ydata).
Proof.
  assert (H240 : Sample.subdir 240 = "240km"%string).
  { unfold Sample.subdir.
    destruct (Req_dec_T 240 240) as [_|n]; [reflexivity | lra]. }
  assert (H120 : Sample.subdir 120 = "120km"%string).
  { unfold Sample.subdir.
    destruct (Req_dec_T 120 240) as [e|_]; [lra|].
    destruct (Req_dec_T 120 120) as [_|n]; [reflexivity | lra]. }
  assert (H60 : Sample.subdir 60 = "60km"%string).
  { unfold Sample.subdir.
    destruct (Req_dec_T 60 240) as [e|_]; [lra|].
    destruct (Req_dec_T 60 120) as [e|_]; [lra | reflexivity]. }
  cbn [collect work_dir Sample.analysis].
  rewrite H240, H120, H60.
  change (work_dir (Sample.analysis conv_thresh conv_max Sample.dir))
    with Sample.dir.
  rewrite (sample_rmse conv_thresh conv_max Sample.dir "240km" 100 0.1)
    by (try reflexivity; try lia; lra).
  cbn [bind app].
  rewrite (sample_rmse conv_thresh conv_max Sample.dir "120km" 400 0.025)
    by (try reflexivity; try lia; lra).
  cbn [bind app].
  rewrite (sample_rmse conv_thresh conv_max Sample.dir "60km" 1600 0.00625)
    by (try reflexivity; try lia; lra).
  reflexivity.
Qed.

(** The same run with a minimum of 2.5: the ValueError of line 117. *)
Lemma sample_run_fails :
  snd (run Sample.subdir (Sample.analysis 2.5 3 Sample.dir))
  = Raise (ValueError_order 2 2.5).
Proof.
  destruct sample_order as (p & Hfit & Hord).
  rewrite (run_collected _ _ _ (sample_collect 2.5 3)). cbn [fst snd].
  rewrite (converge_eq _ _ _ p Hfit), Hord.
  cbn [thresholds Sample.analysis icosahedral config icos_conv_thresh
       icos_conv_max fst snd].
  rewrite check_below by lra. reflexivity.
Qed.

Lemma plot_saved_before_failure_witness :
  exists pre,
    fst (run Sample.subdir (Sample.analysis 2.5 3 Sample.dir))
    = pre ++ [Savefig "convergence.png"].
Proof.
  destruct (plot_saved_before_failure Sample.subdir
              (Sample.analysis 2.5 3 Sample.dir) 2 2.5 sample_run_fails)
    as (d & p & pre & _ & _ & _ & _ & _ & _ & H).
  exists pre. exact H.
Defined.

(** ** The thresholds, for a whole run *)

Lemma run_fails (subdir : R -> string) (self : Analysis)
  (d : list nat * list R) :
  collect subdir self (resolutions self) [] [] = Ok d ->
  (fails (run subdir self) <-> fails (converge self (fst d) (snd d))).
Proof.
  intros H. rewrite (run_collected _ _ _ H). unfold fails. cbn [snd].
  reflexivity.
Qed.

Lemma run_warns (subdir : R -> string) (self : Analysis)
  (d : list nat * list R) :
  collect subdir self (resolutions self) [] [] = Ok d ->
  (warns (run subdir self) <-> warns (converge self (fst d) (snd d))).
Proof.
  intros H. rewrite (run_collected _ _ _ H). unfold warns. cbn [fst].
  split; intros (c & x & Hin); exists c, x.
  - destruct Hin as [Hin|Hin]; [discriminate Hin | exact Hin].
  - right. exact Hin.
Qed.

(** C5 as stated fails when the two thresholds cross: with the minimum at
    2.5 and the maximum at 1.5, the order 2 of the sample run is above the
    maximum, but [run] raises at line 117 and the warning of line 121 is
    never issued. *)
Lemma warning_lost_when_thresholds_cross :
  let self := Sample.analysis 2.5 1.5 Sample.dir in
  let m := run Sample.subdir self in
  thresholds self = (2.5, 1.5) /\
  exists p,
    fit Sample.cells Sample.ydata = Ok p /\
    order p = 2 /\
    m = (SwitchBackend "Agg" :: plot Sample.cells Sample.ydata p,
         Raise (ValueError_order (order p) 2.5)) /\
    ~ ((warns m /\ ~ fails m) <-> order p > 1.5).
Proof.
  intros self m. split; [reflexivity|].
  destruct sample_order as (p & Hfit & Hord).
  exists p. split; [exact Hfit | split; [exact Hord|]].
  assert (Hm : m = (SwitchBackend "Agg" :: plot Sample.cells Sample.ydata p,
                    Raise (ValueError_order (order p) 2.5))).
  { unfold m, self.
    rewrite (run_collected _ _ _ (sample_collect 2.5 1.5)). cbn [fst snd].
    rewrite (converge_eq _ _ _ p Hfit).
    cbn [thresholds Sample.analysis icosahedral config icos_conv_thresh
         icos_conv_max fst snd].
    rewrite check_below by lra. cbn [fst snd]. rewrite app_nil_r.
    reflexivity. }
  split; [exact Hm|].
  intros [_ H]. destruct H as [_ Hnf]; [lra|].
  apply Hnf. rewrite Hm. eexists. reflexivity.
Qed.

(** C5, amended: once the cell counts and RMSE values are collected and
    fitted, [run] raises exactly when the order is below the minimum, and
    issues the warning exactly when the order is above the maximum and not
    below the minimum; with the minimum not above the maximum it warns
    without failing exactly when the order is above the maximum.  An order
    equal to the minimum does not fail, and (minimum not above maximum) an
    order equal to the maximum neither fails nor warns. *)
Theorem threshold_check (subdir : R -> string) (self : Analysis)
  (d : list nat * list R) (p : R * R) :
  collect subdir self (resolutions self) [] [] = Ok d ->
  fit (fst d) (snd d) = Ok p ->
  let m := run subdir self in
  let conv := order p in
  let conv_thresh := fst (thresholds self) in
  let conv_max := snd (thresholds self) in
  (fails m <-> conv < conv_thresh) /\
  (warns m <-> conv > conv_max /\ ~ conv < conv_thresh) /\
  (conv_thresh <= conv_max ->
     ((warns m /\ ~ fails m) <-> conv > conv_max)) /\
  (conv = conv_thresh -> ~ fails m) /\
  (conv_thresh <= conv_max -> conv = conv_max -> ~ fails m /\ ~ warns m).
Proof.
  intros Hc Hfit m conv conv_thresh conv_max.
  assert (Hf : fails m <-> conv < conv_thresh).
  { unfold m. rewrite (run_fails _ _ _ Hc).
    apply (converge_fails self _ _ p Hfit). }
  assert (Hw : warns m <-> conv > conv_max /\ ~ conv < conv_thresh).
  { unfold m. rewrite (run_warns _ _ _ Hc).
    apply (converge_warns self _ _ p Hfit). }
  split; [exact Hf | split; [exact Hw|]].
  rewrite Hf, Hw.
  repeat split; try intros; try lra.
Qed.

Lemma threshold_check_witness :
  let self := Sample.analysis 1.8 2.2 Sample.dir in
  let p := (Polyfit.slope (map Np.log10 (map INR Sample.cells))
              (map Np.log10 Sample.ydata),
            Polyfit.intercept (map Np.log10 (map INR Sample.cells))
              (map Np.log10 Sample.ydata)) in
  fit Sample.cells Sample.ydata = Ok p /\
  (fails (run Sample.subdir self) <-> order p < 1.8).
Proof.
  intros self p.
  assert (Hfit : fit Sample.cells Sample.ydata = Ok p)
    by (apply fit_Ok; [discriminate | reflexivity]).
  split; [exact Hfit|].
  exact (proj1 (threshold_check Sample.subdir self
                  (Sample.cells, Sample.ydata) p
                  (sample_collect 1.8 2.2) Hfit)).
Defined.

(** C9: a run that collects the cell counts 100, 400, 1600 with the RMSE
    values 0.1, 0.025, 0.00625 fits the order 2, and with the thresholds
    1.8 and 2.2 it draws and saves the plot and returns: no exception, no
    warning. *)
Theorem sample_second_order (subdir : R -> string) (self : Analysis) :
  collect subdir self (resolutions self) [] []
    = Ok (Sample.cells, Sample.ydata) ->
  thresholds self = (1.8, 2.2) ->
  exists p,
    fit Sample.cells Sample.ydata = Ok p /\
    order p = 2 /\
    run subdir self
      = (SwitchBackend "Agg" :: plot Sample.cells Sample.ydata p, Ok tt) /\
    ~ fails (run subdir self) /\
    ~ warns (run subdir self).
Proof.
  intros Hc Hth.
  destruct sample_order as (p & Hfit & Hord).
  exists p. split; [exact Hfit | split; [exact Hord|]].
  assert (Hr : run subdir self
               = (SwitchBackend "Agg" :: plot Sample.cells Sample.ydata p,
                  Ok tt)).
  { rewrite (run_collected _ _ _ Hc). cbn [fst snd].
    rewrite (converge_eq self _ _ p Hfit), Hth, Hord. cbn [fst snd].
    rewrite check_within by lra. cbn [fst snd].
    rewrite app_nil_r. reflexivity. }
  split; [exact Hr|]. rewrite Hr. split.
  - intros [e He]. discriminate He.
  - intros (c & x & [H|H]); [discriminate H|].
    exact (plot_no_warning _ _ _ _ _ H).
Qed.

Lemma sample_second_order_witness :
  exists p,
    fit Sample.cells Sample.ydata = Ok p /\
    order p = 2 /\
    run Sample.subdir (Sample.analysis 1.8 2.2 Sample.dir)
      = (SwitchBackend "Agg" :: plot Sample.cells Sample.ydata p, Ok tt) /\
    ~ fails (run Sample.subdir (Sample.analysis 1.8 2.2 Sample.dir)) /\
    ~ warns (run Sample.subdir (Sample.analysis 1.8 2.2 Sample.dir)).
Proof.
  apply (sample_second_order Sample.subdir
           (Sample.analysis 1.8 2.2 Sample.dir)).
  - exact (sample_collect 1.8 2.2).
  - reflexivity.
Defined.

(** * Further properties of the module *)

(** ** The time loop and the elapsed time *)

(** X1: when the stamps before the first one with the evaluation day count
    all parse, the loop stops at that first stamp: the time index is its
    position, and the elapsed time is computed from its hour and minute
    fields, whatever stamps follow. *)
Theorem find_time_first_match (eval_time : R) (pre : list string)
  (s : string) (post : list string) (d hr mn : R) :
  no_match eval_time pre ->
  (forall s', In s' pre -> exists d', Py.float (Py.slice 10 12 s') = Ok d') ->
  Py.float (Py.slice 10 12 s) = Ok d -> d - 1 = eval_time ->
  Py.float (Py.slice 13 15 s) = Ok hr ->
  Py.float (Py.slice 16 18 s) = Ok mn ->
  exists l,
    Rmse.find_time eval_time (pre ++ s :: post)
      = Ok (l, 86400 * eval_time + hr * 3600 + mn) /\
    Rmse.sliceTime l = Some (List.length pre) /\
    Rmse.tt l = Some s.
Proof.
  intros Hno Hp Hd He Hhr Hmn.
  exists {| Rmse.tt := Some s; Rmse.DY := Some (d - 1);
            Rmse.sliceTime := Some (0 + List.length pre)%nat |}.
  split; [|split; reflexivity].
  unfold Rmse.find_time.
  rewrite (time_loop_first_match eval_time s post d pre Hd He Hno Hp).
  cbn [bind get_local Rmse.tt Rmse.DY]. rewrite Hhr, Hmn. cbn [bind].
  unfold Rmse.elapsed. rewrite He. reflexivity.
Qed.

Lemma find_time_first_match_witness :
  exists l,
    Rmse.find_time 1
      (["b'0001-01-01_00:00:00'"%string]
       ++ "b'0001-01-02_06:00:00'"%string
       :: ["b'0001-01-02_12:00:00'"%string])
      = Ok (l, 86400 * 1 + 6 * 3600 + 0) /\
    Rmse.sliceTime l = Some 1%nat /\
    Rmse.tt l = Some "b'0001-01-02_06:00:00'"%string.
Proof.
  apply (find_time_first_match 1 ["b'0001-01-01_00:00:00'"%string]
           "b'0001-01-02_06:00:00'" ["b'0001-01-02_12:00:00'"%string]
           2 6 0).
  - intros s d [<-|[]] Hd. rewrite float_stamp_day0 in Hd.
    injection Hd as <-. lra.
  - intros s [<-|[]]. exists 1. reflexivity.
  - reflexivity.
  - lra.
  - reflexivity.
  - reflexivity.
Defined.

Lemma time_loop_sliceTime (eval_time : R) (stamps : list string) :
  forall j l l',
    Rmse.time_loop eval_time stamps j l = Ok l' ->
    (Rmse.sliceTime l' = Rmse.sliceTime l /\ no_match eval_time stamps) \/
    exists i s d,
      nth_error stamps i = Some s /\
      Py.float (Py.slice 10 12 s) = Ok d /\ d - 1 = eval_time /\
      no_match eval_time (firstn i stamps) /\
      Rmse.sliceTime l' = Some (j + i)%nat.
Proof.
  induction stamps as [|s rest IH]; intros j l l' H.
  - left. cbn [Rmse.time_loop] in H. injection H as <-.
    split; [reflexivity | intros s d []].
  - cbn [Rmse.time_loop] in H.
    apply bind_Ok_inv in H as (d & Hd & H).
    destruct (Req_dec_T (d - 1) eval_time) as [e|ne].
    + right. exists 0%nat, s, d. injection H as <-.
      cbn [nth_error firstn Rmse.sliceTime]. rewrite Nat.add_0_r.
      repeat split; try assumption; try reflexivity.
      intros s' d' [].
    + assert (Hhead : forall s' d', In s' [s] ->
                Py.float (Py.slice 10 12 s') = Ok d' -> d' - 1 <> eval_time).
      { intros s' d' [<-|[]] Hd'. rewrite Hd in Hd'. injection Hd' as <-.
        exact ne. }
      destruct (IH _ _ _ H) as [[Hs Hno]|(i & s' & d' & Hn & Hd' & He & Hno & Hs)].
      * left. split; [exact Hs|].
        intros s' d' [<-|Hin] Hd'.
        -- eapply Hhead; [left; reflexivity | exact Hd'].
        -- exact (Hno s' d' Hin Hd').
      * right. exists (S i), s', d'. cbn [nth_error firstn].
        repeat split; try assumption.
        -- intros s2 d2 [<-|Hin] Hd2.
           ++ eapply Hhead; [left; reflexivity | exact Hd2].
           ++ exact (Hno s2 d2 Hin Hd2).
        -- rewrite Hs. f_equal. lia.
Qed.

(** X2: a value returned by [rmse] comes from the modelled tracer at the
    index of the first stamp of the output file whose day count equals the
    evaluation time: such a stamp exists, no earlier stamp matches, and the
    output has a tracer row at that index. *)
Theorem rmse_value_from_first_match (cfg : Config) (w : WorkDir)
  (mesh_name : string) (v : R) (n : nat) :
  Rmse.rmse cfg w mesh_name = Ok (v, n) ->
  exists ds i s d tracerF,
    tracer_file w (mesh_name ++ "_output.nc")%string = Some ds /\
    nth_error (xtime ds) i = Some s /\
    Py.float (Py.slice 10 12 s) = Ok d /\
    d - 1 = convergence_eval_time cfg /\
    no_match (convergence_eval_time cfg) (firstn i (xtime ds)) /\
    nth_error (tracer1 ds) i = Some tracerF.
Proof.
  intros H. unfold Rmse.rmse in H.
  apply bind_Ok_inv in H as (dm & _ & H).
  apply bind_Ok_inv in H as (di & _ & H).
  apply bind_Ok_inv in H as (ds & Hds & H).
  apply bind_Ok_inv in H as ([l t] & Hft & H).
  apply bind_Ok_inv in H as (init0 & _ & H).
  apply bind_Ok_inv in H as (temp & _ & H).
  apply bind_Ok_inv in H as (tracer & _ & H).
  apply bind_Ok_inv in H as (j & Hj & H).
  apply bind_Ok_inv in H as (tracerF & HtF & _).
  unfold open_tracer in Hds.
  destruct (tracer_file w (mesh_name ++ "_output.nc")) as [ds'|] eqn:E;
    [|discriminate Hds].
  injection Hds as ->.
  unfold Rmse.find_time in Hft.
  apply bind_Ok_inv in Hft as (l0 & Hl & Hft).
  apply bind_Ok_inv in Hft as (s0 & _ & Hft).
  apply bind_Ok_inv in Hft as (hr & _ & Hft).
  apply bind_Ok_inv in Hft as (mn & _ & Hft).
  apply bind_Ok_inv in Hft as (dy & _ & Hft).
  injection Hft as <- _.
  destruct (Rmse.sliceTime l0) as [j0|] eqn:Hs; [|discriminate Hj].
  injection Hj as <-.
  destruct (time_loop_sliceTime _ _ _ _ _ Hl)
    as [[Hsame _]|(i & s & d & Hn & Hd & He & Hno & Hi)].
  - rewrite Hs in Hsame. unfold Rmse.no_locals in Hsame.
    cbn [Rmse.sliceTime] in Hsame. discriminate Hsame.
  - rewrite Hs in Hi. injection Hi as ->.
    exists ds, i, s, d, tracerF.
    unfold Py.index in HtF.
    cbn [Nat.add] in HtF.
    destruct (nth_error (tracer1 ds) i) as [row|] eqn:Hrow;
      [|discriminate HtF].
    injection HtF as ->.
    repeat split; assumption.
Qed.

Lemma rmse_value_from_first_match_witness :
  exists ds i s d tracerF,
    tracer_file Sample.dir ("240km" ++ "_output.nc")%string = Some ds /\
    nth_error (xtime ds) i = Some s /\
    Py.float (Py.slice 10 12 s) = Ok d /\
    d - 1 = convergence_eval_time
              (config (Sample.analysis 1.8 2.2 Sample.dir)) /\
    no_match (convergence_eval_time
                (config (Sample.analysis 1.8 2.2 Sample.dir)))
      (firstn i (xtime ds)) /\
    nth_error (tracer1 ds) i = Some tracerF.
Proof.
  apply (rmse_value_from_first_match
           (config (Sample.analysis 1.8 2.2 Sample.dir)) Sample.dir "240km"
           0.1 100).
  apply sample_rmse; try reflexivity; try lia; lra.
Defined.

Lemma float_no_digit (s : string) :
  (forall c, In c (list_ascii_of_string s) -> Py.digit c = None) ->
  Py.float s = Raise (ValueError_float s).
Proof.
  intros H. destruct s as [|c s]; [reflexivity|].
  unfold Py.float. cbn [Py.digits].
  rewrite (H c) by (left; reflexivity). reflexivity.
Qed.

(** X3: a stamp whose day field holds no digit (or is missing because the
    stamp is too short), met before any matching stamp, makes [rmse] raise
    the ValueError of [float] on that field. *)
Theorem rmse_malformed_stamp (cfg : Config) (w : WorkDir)
  (mesh_name : string) (dm : MeshDs) (di ds : TracerDs)
  (pre : list string) (s : string) (post : list string) :
  mesh_file w (mesh_name ++ "_mesh.nc")%string = Some dm ->
  tracer_file w (mesh_name ++ "_init.nc")%string = Some di ->
  tracer_file w (mesh_name ++ "_output.nc")%string = Some ds ->
  xtime ds = pre ++ s :: post ->
  no_match (convergence_eval_time cfg) pre ->
  (forall s', In s' pre -> exists d', Py.float (Py.slice 10 12 s') = Ok d') ->
  (forall c, In c (list_ascii_of_string (Py.slice 10 12 s)) ->
     Py.digit c = None) ->
  Rmse.rmse cfg w mesh_name
  = Raise (ValueError_float (Py.slice 10 12 s)).
Proof.
  intros Hm Hi Ho Hx Hno Hp Hbad.
  unfold Rmse.rmse, open_mesh, open_tracer.
  rewrite Hm, Hi, Ho. cbn [bind]. rewrite Hx.
  assert (Hl : forall j l,
            Rmse.time_loop (convergence_eval_time cfg) (pre ++ s :: post) j l
            = Raise (ValueError_float (Py.slice 10 12 s))).
  { clear Hx. induction pre as [|s0 pre IH]; intros j l.
    - cbn [app Rmse.time_loop]. rewrite (float_no_digit _ Hbad). reflexivity.
    - cbn [app Rmse.time_loop].
      destruct (Hp s0 (or_introl eq_refl)) as (d0 & Hd0).
      rewrite Hd0. cbn [bind].
      destruct (Req_dec_T (d0 - 1) (convergence_eval_time cfg)) as [e|_].
      + exfalso. exact (Hno s0 d0 (or_introl eq_refl) Hd0 e).
      + apply IH.
        * intros s' d' Hin. apply Hno. right. exact Hin.
        * intros s' Hin. apply Hp. right. exact Hin. }
  unfold Rmse.find_time. rewrite Hl. reflexivity.
Qed.

Lemma rmse_malformed_stamp_witness :
  Rmse.rmse Sample.cfg
    {| mesh_file := fun _ => Some Sample.mesh;
       tracer_file := fun _ =>
         Some {| xtime := ["b'0001-01-01_00:00:00'"%string;
                           "b'0001-01-"%string];
                 tracer1 := [[0]; [0]] |} |}
    "60km"
  = Raise (ValueError_float (Py.slice 10 12 "b'0001-01-")).
Proof.
  apply (rmse_malformed_stamp Sample.cfg
           {| mesh_file := fun _ => Some Sample.mesh;
              tracer_file := fun _ =>
                Some {| xtime := ["b'0001-01-01_00:00:00'"%string;
                                  "b'0001-01-"%string];
                        tracer1 := [[0]; [0]] |} |}
           "60km" Sample.mesh
           {| xtime := ["b'0001-01-01_00:00:00'"%string;
                        "b'0001-01-"%string];
              tracer1 := [[0]; [0]] |}
           {| xtime := ["b'0001-01-01_00:00:00'"%string;
                        "b'0001-01-"%string];
              tracer1 := [[0]; [0]] |}
           ["b'0001-01-01_00:00:00'"%string] "b'0001-01-" []).
  - reflexivity.
  - reflexivity.
  - reflexivity.
  - reflexivity.
  - intros s d [<-|[]] Hd. rewrite float_stamp_day0 in Hd.
    injection Hd as <-. simpl. lra.
  - intros s [<-|[]]. exists 1. reflexivity.
  - intros c [].
Defined.

Lemma time_loop_fields (eval_time : R) (sa sb : list string) :
  Forall2 (fun a b => time_fields a = time_fields b) sa sb ->
  forall j la lb,
    Rmse.sliceTime la = Rmse.sliceTime lb ->
    Rmse.DY la = Rmse.DY lb ->
    option_map time_fields (Rmse.tt la) = option_map time_fields (Rmse.tt lb) ->
    match Rmse.time_loop eval_time sa j la,
          Rmse.time_loop eval_time sb j lb with
    | Ok la', Ok lb' =>
        Rmse.sliceTime la' = Rmse.sliceTime lb' /\
        Rmse.DY la' = Rmse.DY lb' /\
        option_map time_fields (Rmse.tt la')
          = option_map time_fields (Rmse.tt lb')
    | Raise ea, Raise eb => ea = eb
    | _, _ => False
    end.
Proof.
  induction 1 as [|a b sa sb Hab _ IH]; intros j la lb Hs Hd Ht.
  - cbn [Rmse.time_loop]. repeat split; assumption.
  - cbn [Rmse.time_loop].
    unfold time_fields in Hab. injection Hab as H1 H2 H3.
    rewrite H1.
    destruct (Py.float (Py.slice 10 12 b)) as [d|e]; cbn [bind];
      [|reflexivity].
    destruct (Req_dec_T (d - 1) eval_time) as [_|_].
    + cbn [Rmse.sliceTime Rmse.DY Rmse.tt option_map].
      repeat split. unfold time_fields. rewrite H1, H2, H3. reflexivity.
    + apply IH; cbn [Rmse.sliceTime Rmse.DY Rmse.tt option_map].
      * exact Hs.
      * reflexivity.
      * unfold time_fields. rewrite H1, H2, H3. reflexivity.
Qed.

(** X4: the time index and the elapsed time depend only on the characters
    10-11, 13-14 and 16-17 of each stamp (day, hour and minute of the
    rendered stamp): two lists of stamps that agree there, for instance
    stamps that differ in year or month only, give the same index, the same
    time or the same exception. *)
Theorem find_time_reads_day_hour_minute (eval_time : R)
  (sa sb : list string) :
  Forall2 (fun a b => time_fields a = time_fields b) sa sb ->
  match Rmse.find_time eval_time sa, Rmse.find_time eval_time sb with
  | Ok (la, ta), Ok (lb, tb) =>
      Rmse.sliceTime la = Rmse.sliceTime lb /\ ta = tb
  | Raise ea, Raise eb => ea = eb
  | _, _ => False
  end.
Proof.
  intros H.
  pose proof (time_loop_fields eval_time sa sb H 0 Rmse.no_locals
                Rmse.no_locals eq_refl eq_refl eq_refl) as Hl.
  unfold Rmse.find_time.
  destruct (Rmse.time_loop eval_time sa 0 Rmse.no_locals) as [la|ea];
    destruct (Rmse.time_loop eval_time sb 0 Rmse.no_locals) as [lb|eb];
    cbn [bind]; try contradiction; [|exact Hl].
  destruct Hl as (Hs & Hd & Ht).
  destruct la as [ta da ja], lb as [tb db jb].
  cbn [Rmse.sliceTime Rmse.DY Rmse.tt] in *. subst jb db.
  destruct ta as [a|], tb as [b|]; cbn [option_map] in Ht;
    try discriminate Ht; cbn [get_local bind]; [|reflexivity].
  injection Ht as H1 H2 H3. rewrite H2, H3.
  destruct (Py.float (Py.slice 13 15 b)) as [hr|e]; cbn [bind];
    [|reflexivity].
  destruct (Py.float (Py.slice 16 18 b)) as [mn|e]; cbn [bind];
    [|reflexivity].
  destruct da as [dy|]; cbn [get_local bind]; [|reflexivity].
  split; reflexivity.
Qed.

Lemma find_time_reads_day_hour_minute_witness :
  match Rmse.find_time 1 ["b'0001-01-02_00:00:00'"%string],
        Rmse.find_time 1 ["b'0007-03-02_00:00:59'"%string] with
  | Ok (la, ta), Ok (lb, tb) =>
      Rmse.sliceTime la = Rmse.sliceTime lb /\ ta = tb
  | Raise ea, Raise eb => ea = eb
  | _, _ => False
  end.
Proof.
  apply (find_time_reads_day_hour_minute 1
           ["b'0001-01-02_00:00:00'"%string]
           ["b'0007-03-02_00:00:59'"%string]).
  constructor; [reflexivity | constructor].
Defined.

(** ** The shapes of the arrays and the value returned *)

(** X5: when the initial state and the mesh do not have the same number of
    cells, the masked assignment of line 182 raises IndexError, whether or
    not a stamp matches. *)
Theorem rmse_cell_count_mismatch (cfg : Config) (w : WorkDir)
  (mesh_name : string) (dm : MeshDs) (di ds : TracerDs) (l : Rmse.locals)
  (t : R) (init0 : list R) :
  mesh_file w (mesh_name ++ "_mesh.nc")%string = Some dm ->
  tracer_file w (mesh_name ++ "_init.nc")%string = Some di ->
  tracer_file w (mesh_name ++ "_output.nc")%string = Some ds ->
  Rmse.find_time (convergence_eval_time cfg) (xtime ds) = Ok (l, t) ->
  nth_error (tracer1 di) 0 = Some init0 ->
  List.length (latCell dm) = List.length (lonCell dm) ->
  List.length init0 <> List.length (latCell dm) ->
  Rmse.rmse cfg w mesh_name = Raise IndexError.
Proof.
  intros Hm Hi Ho Hft Hi0 Hll Hne.
  unfold Rmse.rmse, open_mesh, open_tracer, Py.index.
  rewrite Hm, Hi, Ho. cbn [bind]. rewrite Hft. cbn [bind].
  rewrite Hi0. cbn [bind].
  rewrite distances_cells by exact Hll. cbn [bind].
  unfold Rmse.analytic, Np.getmask, Np.setmask.
  rewrite length_lt_scalar, Nat.eqb_refl. cbn [bind].
  unfold Np.zeros_like. rewrite length_map, length_map2 by exact Hll.
  apply Nat.eqb_neq in Hne. rewrite Hne. reflexivity.
Qed.

Lemma rmse_cell_count_mismatch_witness :
  Rmse.rmse Sample.cfg
    {| mesh_file := fun _ => Some (Sample.mesh_of 2);
       tracer_file := fun _ => Some Sample.output_day0 |}
    "60km"
  = Raise IndexError.
Proof.
  assert (Hft : Rmse.find_time (convergence_eval_time Sample.cfg)
                  (xtime Sample.output_day0)
                = Ok ({| Rmse.tt := Some "b'0001-01-01_00:00:00'"%string;
                         Rmse.DY := Some (1 - 1);
                         Rmse.sliceTime := None |},
                      Rmse.elapsed (1 - 1) 0 0)).
  { unfold Rmse.find_time, Sample.output_day0, xtime, Rmse.time_loop.
    rewrite float_stamp_day0. cbn [bind].
    destruct (Req_dec_T (1 - 1) (convergence_eval_time Sample.cfg)) as [e|_];
      [simpl in e; lra|].
    reflexivity. }
  apply (rmse_cell_count_mismatch Sample.cfg
           {| mesh_file := fun _ => Some (Sample.mesh_of 2);
              tracer_file := fun _ => Some Sample.output_day0 |}
           "60km" (Sample.mesh_of 2)
           Sample.output_day0 Sample.output_day0 _ _ [0]
           eq_refl eq_refl eq_refl Hft eq_refl eq_refl).
  discriminate.
Defined.



(** ** The analytic tracer and the distances *)

Lemma bell_cell_range (psi radius0 d : R) :
  0 <= psi -> 0 <= bell_cell psi radius0 d <= psi.
Proof.
  intros Hpsi. unfold bell_cell, Rmse.bell.
  destruct (Rlt_dec d radius0) as [_|_]; [|lra].
  pose proof (COS_bound (3.1415926 * d / radius0)) as [Hlo Hhi].
  split; nra.
Qed.

(** X7: for a non-negative amplitude, the analytic tracer, when it is
    computed, has one value per cell of the initial state, each between 0
    and the amplitude. *)
Theorem analytic_within_amplitude (psi radius0 : R)
  (init0 temp tracer : list R) :
  0 <= psi ->
  Rmse.analytic psi radius0 init0 temp = Ok tracer ->
  List.length tracer = List.length init0 /\
  forall x, In x tracer -> 0 <= x <= psi.
Proof.
  intros Hpsi H.
  assert (Hlen : List.length init0 = List.length temp).
  { unfold Rmse.analytic, Np.getmask, Np.setmask in H.
    rewrite length_lt_scalar, Nat.eqb_refl in H. cbn [bind] in H.
    unfold Np.zeros_like in H. rewrite length_map in H.
    destruct (List.length init0 =? List.length temp)%nat eqn:E;
      [|discriminate H].
    apply Nat.eqb_eq. exact E. }
  rewrite (analytic_cells _ _ _ _ Hlen) in H. injection H as <-.
  split.
  - rewrite length_map. symmetry. exact Hlen.
  - intros x Hin. apply in_map_iff in Hin as (d & <- & _).
    apply bell_cell_range. exact Hpsi.
Qed.

Lemma analytic_within_amplitude_witness :
  List.length (map (bell_cell 1 2123740) [1061870; 3000000])
    = List.length [0; 0] /\
  forall x, In x (map (bell_cell 1 2123740) [1061870; 3000000]) ->
    0 <= x <= 1.
Proof.
  apply (analytic_within_amplitude 1 2123740 [0; 0] [1061870; 3000000]).
  - lra.
  - apply analytic_cells. reflexivity.
Defined.



(** X9: the subtraction of 2 pi in lines 171-172 does not change the
    distances (nor, therefore, the analytic tracer): they are the same for
    the wrapped and for the unwrapped longitude of the centre. *)
Theorem distances_wrap_invariant (R0 latCent x : R) (latC lonC : list R) :
  Rmse.distances R0 latCent (Rmse.wrap x) latC lonC
  = Rmse.distances R0 latCent x latC lonC.
Proof.
  unfold Rmse.wrap. destruct (Rgt_dec x (2 * PI)) as [_|_]; [|reflexivity].
  unfold Rmse.distances. do 2 f_equal.
  apply map_ext. intros lo.
  replace (lo - (x - 2 * PI)) with (lo - x + 2 * INR 1 * PI)
    by (simpl; ring).
  apply cos_period.
Qed.



(** ** The drift of the centre *)

(** X11: the new longitude of the centre does not depend on the radius of
    the sphere (as long as it is not 0). *)
Theorem newLon_independent_of_radius (lonCent R1 R2 eval_time t : R) :
  R1 <> 0 -> R2 <> 0 -> eval_time <> 0 ->
  Rmse.newLon lonCent R1 eval_time t = Rmse.newLon lonCent R2 eval_time t.
Proof.
  intros H1 H2 He. unfold Rmse.newLon.
  rewrite !distRad_eq by assumption. reflexivity.
Qed.

Lemma newLon_independent_of_radius_witness :
  Rmse.newLon 3.14159265 6371220 1 86400 = Rmse.newLon 3.14159265 1 1 86400.
Proof.
  apply newLon_independent_of_radius; lra.
Defined.

(** X12: when the matched stamp is at 00:00 of the evaluation day, the
    centre has drifted by 2 * 3.14159265: for a centre at longitude
    1e-7 or more the new longitude is the old one less 2 * (pi - 3.14159265),
    within 1e-7 of where the bell started. *)
Theorem newLon_full_turn (lonCent R0 eval_time : R) :
  R0 <> 0 -> eval_time <> 0 -> 0.0000001 <= lonCent ->
  Rmse.newLon lonCent R0 eval_time (Rmse.elapsed eval_time 0 0)
    = lonCent - 2 * (PI - 3.14159265) /\
  Rabs (Rmse.newLon lonCent R0 eval_time (Rmse.elapsed eval_time 0 0)
        - lonCent) < 0.0000001.
Proof.
  intros HR He Hl.
  pose proof PI_lower as Hlo. pose proof PI_upper as Hup.
  assert (Hn : Rmse.newLon lonCent R0 eval_time (Rmse.elapsed eval_time 0 0)
               = lonCent - 2 * (PI - 3.14159265)).
  { unfold Rmse.newLon. rewrite distRad_eq by assumption.
    unfold Rmse.elapsed.
    replace (2 * 3.14159265 * (86400 * eval_time + 0 * 3600 + 0)
             / (86400 * eval_time)) with (2 * 3.14159265)
      by (field; exact He).
    rewrite wrap_above by lra. ring. }
  split; [exact Hn|]. rewrite Hn.
  apply Rabs_def1; lra.
Qed.

Lemma newLon_full_turn_witness :
  Rmse.newLon 3.14159265 6371220 24 (Rmse.elapsed 24 0 0)
    = 3.14159265 - 2 * (PI - 3.14159265) /\
  Rabs (Rmse.newLon 3.14159265 6371220 24 (Rmse.elapsed 24 0 0)
        - 3.14159265) < 0.0000001.
Proof.
  apply newLon_full_turn; lra.
Defined.

(** ** The loop over the resolutions *)

Lemma collect_acc (subdir : R -> string) (self : Analysis) (rs : list R) :
  forall xdata ydata xs ys,
    collect subdir self rs xdata ydata = Ok (xs, ys) ->
    exists xs' ys',
      xs = xdata ++ xs' /\ ys = ydata ++ ys' /\
      List.length xs' = List.length rs /\
      List.length ys' = List.length rs /\
      forall i r, nth_error rs i = Some r ->
        exists v n,
          Rmse.rmse (config self) (work_dir self) (subdir r) = Ok (v, n) /\
          nth_error xs' i = Some n /\ nth_error ys' i = Some v.
Proof.
  induction rs as [|r rs IH]; intros xdata ydata xs ys H.
  - cbn [collect] in H. injection H as <- <-.
    exists [], []. rewrite !app_nil_r.
    repeat split; try reflexivity.
    intros i r Hi. destruct i; discriminate Hi.
  - cbn [collect] in H.
    apply bind_Ok_inv in H as ([v n] & Hr & H).
    destruct (IH _ _ _ _ H) as (xs' & ys' & -> & -> & Hlx & Hly & Hnth).
    exists (n :: xs'), (v :: ys').
    rewrite <- !app_assoc. cbn [app List.length].
    repeat split; try reflexivity; try (f_equal; assumption).
    intros i r' Hi. destruct i as [|i].
    + injection Hi as <-. exists v, n. repeat split. exact Hr.
    + cbn [nth_error] in Hi. cbn [nth_error]. apply Hnth. exact Hi.
Qed.

(** X13: when the loop over the resolutions completes, the two lists have
    one entry per resolution, in the order of the resolutions: the i-th
    cell count and the i-th RMSE are what [rmse] returns for the mesh of
    the i-th resolution. *)
Theorem collect_one_pair_per_resolution (subdir : R -> string)
  (self : Analysis) (xs : list nat) (ys : list R) :
  collect subdir self (resolutions self) [] [] = Ok (xs, ys) ->
  List.length xs = List.length (resolutions self) /\
  List.length ys = List.length (resolutions self) /\
  forall i r, nth_error (resolutions self) i = Some r ->
    exists v n,
      Rmse.rmse (config self) (work_dir self) (subdir r) = Ok (v, n) /\
      nth_error xs i = Some n /\ nth_error ys i = Some v.
Proof.
  intros H.
  destruct (collect_acc _ _ _ _ _ _ _ H)
    as (xs' & ys' & -> & -> & Hlx & Hly & Hnth).
  cbn [app]. repeat split; assumption.
Qed.

Lemma collect_one_pair_per_resolution_witness :
  List.length Sample.cells
    = List.length (resolutions (Sample.analysis 1.8 2.2 Sample.dir)) /\
  List.length Sample.ydata
    = List.length (resolutions (Sample.analysis 1.8 2.2 Sample.dir)) /\
  forall i r,
    nth_error (resolutions (Sample.analysis 1.8 2.2 Sample.dir)) i = Some r ->
    exists v n,
      Rmse.rmse (config (Sample.analysis 1.8 2.2 Sample.dir))
        (work_dir (Sample.analysis 1.8 2.2 Sample.dir)) (Sample.subdir r)
        = Ok (v, n) /\
      nth_error Sample.cells i = Some n /\ nth_error Sample.ydata i = Some v.
Proof.
  apply (collect_one_pair_per_resolution Sample.subdir
           (Sample.analysis 1.8 2.2 Sample.dir) Sample.cells Sample.ydata).
  exact (sample_collect 1.8 2.2).
Defined.

Lemma collect_raises (subdir : R -> string) (self : Analysis) (r : R)
  (post : list R) (e : exn) (pre : list R) :
  (forall r', In r' pre ->
     exists p, Rmse.rmse (config self) (work_dir self) (subdir r') = Ok p) ->
  Rmse.rmse (config self) (work_dir self) (subdir r) = Raise e ->
  forall xdata ydata,
    collect subdir self (pre ++ r :: post) xdata ydata = Raise e.
Proof.
  intros Hpre Hr. induction pre as [|r0 pre IH]; intros xdata ydata.
  - cbn [app collect]. rewrite Hr. reflexivity.
  - cbn [app collect].
    destruct (Hpre r0 (or_introl eq_refl)) as ([v n] & H0).
    rewrite H0. cbn [bind]. apply IH.
    intros r' Hin. apply Hpre. right. exact Hin.
Qed.

(** X14: the first resolution for which [rmse] raises ends the run with
    that exception: the resolutions after it are not evaluated, nothing is
    fitted and no plot is drawn or saved. *)
Theorem run_stops_at_first_failure (subdir : R -> string) (self : Analysis)
  (pre : list R) (r : R) (post : list R) (e : exn) :
  resolutions self = pre ++ r :: post ->
  (forall r', In r' pre ->
     exists p, Rmse.rmse (config self) (work_dir self) (subdir r') = Ok p) ->
  Rmse.rmse (config self) (work_dir self) (subdir r) = Raise e ->
  run subdir self = ([SwitchBackend "Agg"], Raise e).
Proof.
  intros Hrs Hpre Hr. apply run_not_collected. rewrite Hrs.
  apply collect_raises; assumption.
Qed.

Lemma run_stops_at_first_failure_witness :
  run Sample.subdir (Sample.analysis 1.8 2.2 Sample.dir_day0)
  = ([SwitchBackend "Agg"], Raise (FileNotFoundError "240km_mesh.nc")).
Proof.
  apply (run_stops_at_first_failure Sample.subdir
           (Sample.analysis 1.8 2.2 Sample.dir_day0) [] 240 [120; 60]).
  - reflexivity.
  - intros r' [].
  - unfold Sample.subdir.
    destruct (Req_dec_T 240 240) as [_|n]; [reflexivity | lra].
Defined.

(** ** The plot *)

Lemma check_no_savefig (conv conv_thresh conv_max : R) (f : string) :
  ~ In (Savefig f) (fst (check conv conv_thresh conv_max)).
Proof.
  unfold check.
  destruct (Rlt_dec conv conv_thresh); destruct (Rgt_dec conv conv_max);
    cbn; intros H; repeat (destruct H as [H|H]; [discriminate H|]);
    exact H.
Qed.

Lemma run_savefig_only (subdir : R -> string) (self : Analysis)
  (f : string) :
  In (Savefig f) (fst (run subdir self)) -> f = "convergence.png"%string.
Proof.
  destruct (collect subdir self (resolutions self) [] []) as [d|e] eqn:Hc.
  - rewrite (run_collected _ _ _ Hc). cbn [fst].
    destruct (fit (fst d) (snd d)) as [p|e] eqn:Hf.
    + rewrite (converge_eq self _ _ p Hf). cbn [fst].
      intros [H|H]; [discriminate H|].
      apply in_app_or in H as [H|H];
        [|exfalso; exact (check_no_savefig _ _ _ f H)].
      unfold plot in H. cbn [In] in H.
      repeat (destruct H as [H|H]; [try discriminate H|]).
      * injection H as <-. reflexivity.
      * destruct H.
    + rewrite (converge_not_fitted _ _ _ _ Hf). cbn [fst].
      intros [H|[]]. discriminate H.
  - rewrite (run_not_collected _ _ _ Hc). cbn [fst].
    intros [H|[]]. discriminate H.
Qed.

(** X15: [run] writes convergence.png exactly when the loop over the
    resolutions and the fit both succeed, and it writes no other file. *)
Theorem savefig_iff_fitted (subdir : R -> string) (self : Analysis) :
  (In (Savefig "convergence.png") (fst (run subdir self))
   <-> exists d p,
         collect subdir self (resolutions self) [] [] = Ok d /\
         fit (fst d) (snd d) = Ok p) /\
  forall f, In (Savefig f) (fst (run subdir self)) ->
    f = "convergence.png"%string.
Proof.
  split; [|intros f; apply run_savefig_only].
  destruct (collect subdir self (resolutions self) [] []) as [d|e] eqn:Hc.
  - rewrite (run_collected _ _ _ Hc). cbn [fst].
    destruct (fit (fst d) (snd d)) as [p|e] eqn:Hf.
    + rewrite (converge_eq self _ _ p Hf). cbn [fst].
      split.
      * intros _. exists d, p. split; [reflexivity | exact Hf].
      * intros _. right. apply in_or_app. left. unfold plot. cbn [In].
        do 5 right. left. reflexivity.
    + rewrite (converge_not_fitted _ _ _ _ Hf). cbn [fst].
      split.
      * intros [H|[]]. discriminate H.
      * intros (d' & p & Hd & Hp). injection Hd as <-.
        rewrite Hf in Hp. discriminate Hp.
  - rewrite (run_not_collected _ _ _ Hc). cbn [fst].
    split.
    + intros [H|[]]. discriminate H.
    + intros (d' & p & Hd & _). discriminate Hd.
Qed.

(** X16: with an empty list of resolutions [run] raises the TypeError of
    [np.polyfit] on empty vectors, before anything is drawn. *)
Theorem run_no_resolutions (subdir : R -> string) (self : Analysis) :
  resolutions self = [] ->
  run subdir self = ([SwitchBackend "Agg"], Raise TypeError).
Proof.
  intros H.
  assert (Hc : collect subdir self (resolutions self) [] [] = Ok ([], []))
    by (rewrite H; reflexivity).
  rewrite (run_collected _ _ _ Hc). cbn [fst snd].
  rewrite (converge_not_fitted self [] [] TypeError) by reflexivity.
  reflexivity.
Qed.

Lemma run_no_resolutions_witness :
  run Sample.subdir
    {| resolutions := []; icosahedral := false; config := Sample.cfg;
       work_dir := Sample.dir |}
  = ([SwitchBackend "Agg"], Raise TypeError).
Proof.
  apply run_no_resolutions. reflexivity.
Defined.

(** ** The fitted curve and the order *)

Lemma log10_fitted_curve (x m b : R) :
  0 < x ->
  Np.log10 (Rpower x m * Rpower 10 b) = m * Np.log10 x + b.
Proof.
  intros Hx. unfold Np.log10, Rpower.
  rewrite ln_mult by apply exp_pos. rewrite !ln_exp.
  pose proof ln_10_pos. field. lra.
Qed.

(** X17: the curve drawn first (line 98, plotted in black) is the fitted
    line: for positive cell counts, the log10 of its ordinates is slope
    times log10 of the cell counts plus intercept. *)
Theorem yfit_is_fitted_line (self : Analysis) (cells : list nat)
  (ydata : list R) (p : R * R) :
  fit cells ydata = Ok p ->
  (forall n, In n cells -> (0 < n)%nat) ->
  exists yfit rest,
    fst (converge self cells ydata)
      = Loglog (map INR cells) yfit "k" :: rest /\
    List.length yfit = List.length cells /\
    map Np.log10 yfit
      = map (fun u => fst p * u + snd p) (map Np.log10 (map INR cells)).
Proof.
  intros Hfit Hpos.
  rewrite (converge_eq self _ _ p Hfit). cbn [fst]. unfold plot.
  eexists. eexists. split; [reflexivity|]. split.
  - rewrite !length_map. reflexivity.
  - rewrite !map_map. apply map_ext_in. intros n Hn.
    apply log10_fitted_curve. apply lt_0_INR, Hpos, Hn.
Qed.

Lemma yfit_is_fitted_line_witness :
  exists yfit rest,
    fst (converge (Sample.analysis 1.8 2.2 Sample.dir) Sample.cells
           Sample.ydata)
      = Loglog (map INR Sample.cells) yfit "k" :: rest /\
    List.length yfit = List.length Sample.cells /\
    map Np.log10 yfit
      = map (fun u =>
               fst (Polyfit.slope (map Np.log10 (map INR Sample.cells))
                      (map Np.log10 Sample.ydata),
                    Polyfit.intercept (map Np.log10 (map INR Sample.cells))
                      (map Np.log10 Sample.ydata)) * u
               + snd (Polyfit.slope (map Np.log10 (map INR Sample.cells))
                        (map Np.log10 Sample.ydata),
                      Polyfit.intercept
                        (map Np.log10 (map INR Sample.cells))
                        (map Np.log10 Sample.ydata)))
          (map Np.log10 (map INR Sample.cells)).
Proof.
  apply (yfit_is_fitted_line (Sample.analysis 1.8 2.2 Sample.dir)
           Sample.cells Sample.ydata).
  - apply fit_Ok; [discriminate | reflexivity].
  - intros n [<-|[<-|[<-|[]]]]; lia.
Defined.

Lemma intercept_exact (a m : R) (x : list R) (u1 u2 : R) :
  In u1 x -> In u2 x -> u1 <> u2 ->
  Polyfit.intercept x (map (fun u => a + m * u) x) = a.
Proof.
  intros H1 H2 Hne. unfold Polyfit.intercept.
  rewrite (slope_exact a m x u1 u2 H1 H2 Hne).
  unfold Polyfit.xbar. rewrite mean_affine by (intros ->; destruct H1).
  ring.
Qed.

Lemma Rpower_10_log10 (C : R) : 0 < C -> Rpower 10 (Np.log10 C) = C.
Proof.
  intros HC. unfold Rpower, Np.log10.
  pose proof ln_10_pos.
  replace (ln C / ln 10 * ln 10) with (ln C) by (field; lra).
  apply exp_ln. exact HC.
Qed.

(** X18: on data that follow a power law RMSE = C * N ^ (- p / 2) exactly
    (positive cell counts, two of them different) the fitted curve goes
    through every data point: the two curves that are drawn coincide. *)
Theorem yfit_through_power_law_data (self : Analysis) (p C : R)
  (cells : list nat) (n1 n2 : nat) :
  0 < C ->
  (forall n, In n cells -> (0 < n)%nat) ->
  In n1 cells -> In n2 cells -> n1 <> n2 ->
  let ydata := map (fun n => C * Rpower (INR n) (- p / 2)) cells in
  exists rest,
    fst (converge self cells ydata)
      = Loglog (map INR cells) ydata "k"
        :: Loglog (map INR cells) ydata "or" :: rest.
Proof.
  intros HC Hpos H1 H2 Hne ydata.
  assert (Hfit : fit cells ydata
                 = Ok (Polyfit.slope (map Np.log10 (map INR cells))
                         (map Np.log10 ydata),
                       Polyfit.intercept (map Np.log10 (map INR cells))
                         (map Np.log10 ydata))).
  { apply fit_Ok; [intros ->; destruct H1|].
    unfold ydata. rewrite length_map. reflexivity. }
  rewrite (converge_eq self _ _ _ Hfit). cbn [fst snd]. unfold plot.
  cbn [fst snd app].
  assert (Hy : map Np.log10 ydata
               = map (fun u => Np.log10 C + (- p / 2) * u)
                   (map Np.log10 (map INR cells))).
  { unfold ydata. rewrite !map_map. apply map_ext_in. intros n Hn.
    apply log10_power_law; [exact HC|]. apply lt_0_INR, Hpos, Hn. }
  assert (Hi1 : In (Np.log10 (INR n1)) (map Np.log10 (map INR cells))).
  { rewrite map_map. apply in_map_iff. exists n1. split; [reflexivity|exact H1]. }
  assert (Hi2 : In (Np.log10 (INR n2)) (map Np.log10 (map INR cells))).
  { rewrite map_map. apply in_map_iff. exists n2. split; [reflexivity|exact H2]. }
  assert (Hd : Np.log10 (INR n1) <> Np.log10 (INR n2)).
  { intros H. apply Hne. apply log10_INR_inj; auto. }
  rewrite Hy.
  rewrite (slope_exact _ _ _ _ _ Hi1 Hi2 Hd),
    (intercept_exact _ _ _ _ _ Hi1 Hi2 Hd).
  rewrite (Rpower_10_log10 C HC).
  eexists. f_equal. f_equal.
  unfold ydata. rewrite map_map. apply map_ext. intros n. ring.
Qed.

Lemma yfit_through_power_law_data_witness :
  exists rest,
    fst (converge (Sample.analysis 1.8 2.2 Sample.dir) Sample.cells
           (map (fun n => 10 * Rpower (INR n) (- 2 / 2)) Sample.cells))
      = Loglog (map INR Sample.cells)
          (map (fun n => 10 * Rpower (INR n) (- 2 / 2)) Sample.cells) "k"
        :: Loglog (map INR Sample.cells)
             (map (fun n => 10 * Rpower (INR n) (- 2 / 2)) Sample.cells) "or"
        :: rest.
Proof.
  apply (yfit_through_power_law_data (Sample.analysis 1.8 2.2 Sample.dir)
           2 10 Sample.cells 100%nat 400%nat).
  - lra.
  - intros n [<-|[<-|[<-|[]]]]; lia.
  - left; reflexivity.
  - right; left; reflexivity.
  - discriminate.
Defined.







(** X20: when the error is the same positive value at every resolution
    (positive cell counts, two of them different), the order of convergence
    is 0, and what follows the loop raises for every positive minimum
    threshold. *)
Theorem order_zero_without_convergence (self : Analysis) (c : R)
  (cells : list nat) (n1 n2 : nat) :
  0 < c ->
  (forall n, In n cells -> (0 < n)%nat) ->
  In n1 cells -> In n2 cells -> n1 <> n2 ->
  exists p,
    fit cells (map (fun _ => c) cells) = Ok p /\
    order p = 0 /\
    (0 < fst (thresholds self) ->
     fails (converge self cells (map (fun _ => c) cells))).
Proof.
  intros Hc Hpos H1 H2 Hne.
  assert (Hfit : fit cells (map (fun _ => c) cells)
                 = Ok (Polyfit.slope (map Np.log10 (map INR cells))
                         (map Np.log10 (map (fun _ => c) cells)),
                       Polyfit.intercept (map Np.log10 (map INR cells))
                         (map Np.log10 (map (fun _ => c) cells)))).
  { apply fit_Ok; [intros ->; destruct H1|].
    rewrite length_map. reflexivity. }
  eexists. split; [exact Hfit|].
  assert (Hord : order
                   (Polyfit.slope (map Np.log10 (map INR cells))
                      (map Np.log10 (map (fun _ => c) cells)),
                    Polyfit.intercept (map Np.log10 (map INR cells))
                      (map Np.log10 (map (fun _ => c) cells))) = 0).
  { unfold order. cbn [fst].
    assert (Hy : map Np.log10 (map (fun _ : nat => c) cells)
                 = map (fun u => Np.log10 c + 0 * u)
                     (map Np.log10 (map INR cells))).
    { rewrite !map_map. apply map_ext. intros n. ring. }
    rewrite Hy.
    rewrite (slope_exact _ _ _ (Np.log10 (INR n1)) (Np.log10 (INR n2))).
    - rewrite Rabs_R0. ring.
    - rewrite map_map. apply in_map_iff. exists n1.
      split; [reflexivity | exact H1].
    - rewrite map_map. apply in_map_iff. exists n2.
      split; [reflexivity | exact H2].
    - intros H. apply Hne. apply log10_INR_inj; auto. }
  split; [exact Hord|].
  intros Hth. apply (converge_fails self _ _ _ Hfit). rewrite Hord.
  exact Hth.
Qed.

Lemma order_zero_without_convergence_witness :
  exists p,
    fit Sample.cells (map (fun _ => 0.1) Sample.cells) = Ok p /\
    order p = 0 /\
    (0 < fst (thresholds (Sample.analysis 1.8 2.2 Sample.dir)) ->
     fails (converge (Sample.analysis 1.8 2.2 Sample.dir) Sample.cells
              (map (fun _ => 0.1) Sample.cells))).
Proof.
  apply (order_zero_without_convergence
           (Sample.analysis 1.8 2.2 Sample.dir) 0.1 Sample.cells
           100%nat 400%nat).
  - lra.
  - intros n [<-|[<-|[<-|[]]]]; lia.
  - left; reflexivity.
  - right; left; reflexivity.
  - discriminate.
Defined.

(** ** The input and output files of the step *)

(** [rmse] consults the work directory only under the three file names
    made from the name of the mesh. *)
Lemma rmse_reads_only_opened (cfg : Config) (w w' : WorkDir)
  (mesh_name : string) :
  mesh_file w (mesh_name ++ "_mesh.nc")%string
    = mesh_file w' (mesh_name ++ "_mesh.nc")%string ->
  tracer_file w (mesh_name ++ "_init.nc")%string
    = tracer_file w' (mesh_name ++ "_init.nc")%string ->
  tracer_file w (mesh_name ++ "_output.nc")%string
    = tracer_file w' (mesh_name ++ "_output.nc")%string ->
  Rmse.rmse cfg w mesh_name = Rmse.rmse cfg w' mesh_name.
Proof.
  intros Hm Hi Ho. unfold Rmse.rmse, open_mesh, open_tracer.
  rewrite Hm, Hi, Ho. reflexivity.
Qed.

Lemma setup_loop_spec (subdir : R -> string) (deps : Setup.Dependencies)
  (rs : list R) :
  forall inputs inputs' oe,
    Setup.setup_loop subdir deps rs inputs = (inputs', oe) ->
    exists k added,
      (k <= List.length rs)%nat /\
      inputs' = inputs ++ added /\
      List.length added = (3 * k)%nat /\
      (forall r f, In r (firstn k rs) -> In f (opened (subdir r)) ->
         In f (map fst added)) /\
      match oe with
      | None => k = List.length rs
      | Some e =>
          exists r kind,
            nth_error rs k = Some r /\
            In kind ["mesh"%string; "init"%string; "forward"%string] /\
            Setup.lookup deps kind r = inl e
      end.
Proof.
  induction rs as [|r rs IH]; intros inputs inputs' oe H.
  - cbn [Setup.setup_loop] in H. injection H as <- <-.
    exists 0%nat, []. rewrite app_nil_r.
    split; [reflexivity|]. split; [reflexivity|]. split; [reflexivity|].
    split; [intros r f []|reflexivity].
  - cbn [Setup.setup_loop] in H.
    assert (Hstop : forall kind e,
              In kind ["mesh"%string; "init"%string; "forward"%string] ->
              Setup.lookup deps kind r = inl e ->
              exists k added,
                (k <= List.length (r :: rs))%nat /\
                inputs = inputs ++ added /\
                List.length added = (3 * k)%nat /\
                (forall r' f, In r' (firstn k (r :: rs)) ->
                   In f (opened (subdir r')) -> In f (map fst added)) /\
                exists r' kind',
                  nth_error (r :: rs) k = Some r' /\
                  In kind' ["mesh"%string; "init"%string; "forward"%string] /\
                  Setup.lookup deps kind' r' = inl e).
    { intros kind e Hkind Hl. exists 0%nat, []. rewrite app_nil_r.
      split; [cbn [List.length]; lia|].
      split; [reflexivity|]. split; [reflexivity|].
      split; [intros r' f []|].
      exists r, kind. split; [reflexivity|]. split; assumption. }
    destruct (Setup.lookup deps "mesh" r) as [e|base_mesh] eqn:Hm.
    { injection H as <- <-.
      apply (Hstop "mesh"%string e); [left; reflexivity | exact Hm]. }
    destruct (Setup.lookup deps "init" r) as [e|init0] eqn:Hi.
    { injection H as <- <-.
      apply (Hstop "init"%string e); [right; left; reflexivity | exact Hi]. }
    destruct (Setup.lookup deps "forward" r) as [e|forward] eqn:Hf.
    { injection H as <- <-.
      apply (Hstop "forward"%string e);
        [right; right; left; reflexivity | exact Hf]. }
    clear Hstop.
    destruct (IH _ _ _ H) as (k & added & Hk & -> & Hlen & Hin & Hoe).
    exists (S k),
      (Setup.files (subdir r) base_mesh init0 forward ++ added).
    rewrite <- app_assoc.
    split; [cbn [List.length]; lia|].
    split; [reflexivity|].
    split; [rewrite length_app, Hlen; cbn [Setup.files List.length]; lia|].
    split.
    + intros r' f Hr' Hf'. rewrite map_app. apply in_or_app.
      cbn [firstn] in Hr'. destruct Hr' as [<-|Hr'].
      * left. exact Hf'.
      * right. exact (Hin r' f Hr' Hf').
    + destruct oe as [e|].
      * destruct Hoe as (r' & kind & Hn & Hkind & Hl).
        exists r', kind. split; [exact Hn|]. split; assumption.
      * cbn [List.length]. f_equal. exact Hoe.
Qed.

(** X21: when [setup] completes, it has added three input files per
    resolution to the inputs the step had, among them, for every
    resolution of the list, the three files that [rmse] opens for it; the
    output files are unchanged. *)
Theorem setup_registers_opened_files (subdir : R -> string)
  (self self' : Setup.state) :
  Setup.setup subdir self = (self', None) ->
  List.length (Setup.input_data self')
    = (List.length (Setup.input_data self)
       + 3 * List.length (Setup.resolutions self))%nat /\
  (forall i, In i (Setup.input_data self) -> In i (Setup.input_data self')) /\
  (forall r f, In r (Setup.resolutions self) -> In f (opened (subdir r)) ->
     In f (map fst (Setup.input_data self'))) /\
  Setup.outputs self' = Setup.outputs self /\
  Setup.resolutions self' = Setup.resolutions self.
Proof.
  unfold Setup.setup. intros H.
  destruct (Setup.setup_loop subdir (Setup.dependencies_dict self)
              (Setup.resolutions self) (Setup.input_data self))
    as [inputs oe] eqn:Hl.
  injection H as <- ->. cbn [Setup.input_data Setup.outputs Setup.resolutions].
  destruct (setup_loop_spec _ _ _ _ _ _ Hl)
    as (k & added & Hk & -> & Hlen & Hin & ->).
  rewrite firstn_all in Hin.
  split; [rewrite length_app, Hlen; reflexivity|].
  split; [intros i Hi; apply in_or_app; left; exact Hi|].
  split; [|split; reflexivity].
  intros r f Hr Hf. rewrite map_app. apply in_or_app. right.
  exact (Hin r f Hr Hf).
Qed.

Lemma setup_registers_opened_files_witness :
  let self := SampleSetup.step SampleSetup.deps in
  let self' := fst (Setup.setup Sample.subdir self) in
  List.length (Setup.input_data self')
    = (List.length (Setup.input_data self)
       + 3 * List.length (Setup.resolutions self))%nat /\
  (forall i, In i (Setup.input_data self) -> In i (Setup.input_data self')) /\
  (forall r f, In r (Setup.resolutions self) ->
     In f (opened (Sample.subdir r)) ->
     In f (map fst (Setup.input_data self'))) /\
  Setup.outputs self' = Setup.outputs self /\
  Setup.resolutions self' = Setup.resolutions self.
Proof.
  intros self self'.
  apply (setup_registers_opened_files Sample.subdir self self').
  reflexivity.
Defined.

(** X22: when [setup] stops on a KeyError, one of the three dependencies
    of some resolution is missing, and the step is left with the input
    files of the resolutions before that one, three for each: the loop adds
    the files of a resolution only after all three lookups. *)
Theorem setup_key_error (subdir : R -> string) (self self' : Setup.state)
  (e : Setup.KeyError) :
  Setup.setup subdir self = (self', Some e) ->
  exists pre r post kind,
    Setup.resolutions self = pre ++ r :: post /\
    In kind ["mesh"%string; "init"%string; "forward"%string] /\
    Setup.lookup (Setup.dependencies_dict self) kind r = inl e /\
    List.length (Setup.input_data self')
      = (List.length (Setup.input_data self) + 3 * List.length pre)%nat /\
    (forall r' f, In r' pre -> In f (opened (subdir r')) ->
       In f (map fst (Setup.input_data self'))).
Proof.
  unfold Setup.setup. intros H.
  destruct (Setup.setup_loop subdir (Setup.dependencies_dict self)
              (Setup.resolutions self) (Setup.input_data self))
    as [inputs oe] eqn:Hl.
  injection H as <- ->. cbn [Setup.input_data].
  destruct (setup_loop_spec _ _ _ _ _ _ Hl)
    as (k & added & Hk & -> & Hlen & Hin & (r & kind & Hn & Hkind & Hlk)).
  destruct (nth_error_split _ _ Hn) as (pre & post & Hrs & Hpre).
  exists pre, r, post, kind.
  assert (Hfirst : firstn k (Setup.resolutions self) = pre).
  { rewrite Hrs, <- Hpre, firstn_app, Nat.sub_diag, firstn_all.
    cbn [firstn]. apply app_nil_r. }
  rewrite Hfirst in Hin.
  split; [exact Hrs|]. split; [exact Hkind|]. split; [exact Hlk|].
  split; [rewrite length_app, Hlen, Hpre; reflexivity|].
  intros r' f Hr' Hf. rewrite map_app. apply in_or_app. right.
  exact (Hin r' f Hr' Hf).
Qed.

Lemma setup_key_error_witness :
  exists pre r post kind,
    Setup.resolutions (SampleSetup.step SampleSetup.deps_no_forward_120)
      = pre ++ r :: post /\
    In kind ["mesh"%string; "init"%string; "forward"%string] /\
    Setup.lookup
      (Setup.dependencies_dict
         (SampleSetup.step SampleSetup.deps_no_forward_120)) kind r
      = inl (Setup.KeyError_resolution 120) /\
    List.length
      (Setup.input_data
         (fst (Setup.setup Sample.subdir
                 (SampleSetup.step SampleSetup.deps_no_forward_120))))
      = (List.length
           (Setup.input_data
              (SampleSetup.step SampleSetup.deps_no_forward_120))
         + 3 * List.length pre)%nat /\
    (forall r' f, In r' pre -> In f (opened (Sample.subdir r')) ->
       In f (map fst
               (Setup.input_data
                  (fst (Setup.setup Sample.subdir
                          (SampleSetup.step
                             SampleSetup.deps_no_forward_120)))))).
Proof.
  apply (setup_key_error Sample.subdir
           (SampleSetup.step SampleSetup.deps_no_forward_120)).
  unfold Setup.setup, SampleSetup.step, Setup.init.
  cbn [Setup.dependencies_dict Setup.resolutions Setup.input_data
       Setup.setup_loop].
  unfold Setup.lookup, SampleSetup.deps_no_forward_120.
  cbn [String.eqb Ascii.eqb Bool.eqb].
  destruct (Req_dec_T 240 120) as [e|_]; [lra|].
  destruct (Req_dec_T 120 120) as [_|n]; [|lra].
  reflexivity.
Defined.

(** X23: every file that [run] writes is an output file that [__init__]
    declared, and [setup] leaves it declared. *)
Theorem run_writes_declared_output (subdir : R -> string) (self : Analysis)
  (f : string) (rs : list R) (ico : bool) (sd : string)
  (deps : Setup.Dependencies) :
  In (Savefig f) (fst (run subdir self)) ->
  In f (Setup.outputs (Setup.init rs ico sd deps)) /\
  In f (Setup.outputs (fst (Setup.setup subdir (Setup.init rs ico sd deps)))).
Proof.
  intros H. apply run_savefig_only in H. subst f.
  split; [left; reflexivity|].
  unfold Setup.setup.
  destruct (Setup.setup_loop _ _ _ _) as [inputs oe].
  cbn [fst Setup.outputs Setup.init]. left. reflexivity.
Qed.

Lemma sample_run_saves :
  In (Savefig "convergence.png")
    (fst (run Sample.subdir (Sample.analysis 1.8 2.2 Sample.dir))).
Proof.
  destruct sample_order as (p & Hfit & _).
  rewrite (run_collected _ _ _ (sample_collect 1.8 2.2)). cbn [fst snd].
  rewrite (converge_eq _ _ _ p Hfit). cbn [fst].
  right. apply in_or_app. left. unfold plot. cbn [In].
  do 5 right. left. reflexivity.
Qed.

Lemma run_writes_declared_output_witness :
  In "convergence.png"%string
    (Setup.outputs (Setup.init [240; 120; 60] true "analysis"
                      SampleSetup.deps)) /\
  In "convergence.png"%string
    (Setup.outputs
       (fst (Setup.setup Sample.subdir
               (Setup.init [240; 120; 60] true "analysis"
                  SampleSetup.deps)))).
Proof.
  apply (run_writes_declared_output Sample.subdir
           (Sample.analysis 1.8 2.2 Sample.dir) "convergence.png"
           [240; 120; 60] true "analysis" SampleSetup.deps).
  exact sample_run_saves.
Defined.

(** ** The evaluation times that can match *)





